(** * fiap-tech-challenge-auth: the four Cognito handlers

    A shallow embedding of the Lambda handlers [authorize], [authenticate],
    [register] and [confirm] and of [calculateSecretHash].  The repository
    carries two revisions of the handlers:

    - [Index]: src/index.ts, every response written out in place and the
      provider's [message] copied into the body as it is;
    - [Refactored]: the revision built on the [respond] helper, with a
      fallback message for each handler.

    Both have the four handlers.  An earlier draft of [authenticate] alone,
    kept at the end of src/index.ts after the manual tests, is not one of
    them; it is modelled apart, as [Draft].

    The JavaScript runtime the handlers lean on is modelled first: strings
    as sequences of UTF-16 code units, [String.prototype.replace],
    [JSON.parse], [JSON.stringify], truthiness, property lookup, string
    conversion, and the [crypto] HMAC-SHA-256 with its base64 digest. *)

From Stdlib Require Import ZArith List String Ascii Lia Bool.
From stdpp Require Import base option list gmap.

Open Scope Z_scope.

(** ** JavaScript strings *)

(** A string is its sequence of UTF-16 code units, each in [0, 65536). *)
Definition jsstring := list Z.

(** An ASCII literal of the source as a JavaScript string. *)
Fixpoint js (s : string) : jsstring :=
  match s with
  | EmptyString => []
  | String a r => Z.of_N (N_of_ascii a) :: js r
  end.

Definition jsstring_eqb (s t : jsstring) : bool := bool_decide (s = t).

(** [starts_with pat s]: [pat] is a prefix of [s]. *)
Fixpoint starts_with (pat s : jsstring) : bool :=
  match pat, s with
  | [], _ => true
  | _ :: _, [] => false
  | p :: pat', c :: s' => (p =? c) && starts_with pat' s'
  end.

(** [String.prototype.indexOf(pat)] from position 0: the least index at
    which [pat] occurs. *)
Fixpoint indexOf (pat s : jsstring) : option nat :=
  if starts_with pat s then Some 0%nat
  else match s with
       | [] => None
       | _ :: s' => S <$> indexOf pat s'
       end.

(** [s.replace(pat, rep)] for a string pattern and a replacement without
    [$] patterns: only the first occurrence is replaced. *)
Definition String_replace (s pat rep : jsstring) : jsstring :=
  match indexOf pat s with
  | None => s
  | Some pos => take pos s ++ rep ++ drop (pos + length pat)%nat s
  end.

(** ** crypto: SHA-256, HMAC and base64 over bytes *)

Module Crypto.

Definition is_high_surrogate (c : Z) : bool := (0xD800 <=? c) && (c <=? 0xDBFF).
Definition is_low_surrogate (c : Z) : bool := (0xDC00 <=? c) && (c <=? 0xDFFF).

Definition replacement_character : list Z := [0xEF; 0xBF; 0xBD].

(** [Buffer.from(s, 'utf8')]: surrogate pairs become one four-byte
    sequence, a lone surrogate becomes U+FFFD. *)
Fixpoint utf8 (s : jsstring) : list Z :=
  match s with
  | [] => []
  | c :: r =>
      if c <? 0x80 then c :: utf8 r
      else if c <? 0x800 then
        Z.lor 0xC0 (Z.shiftr c 6) :: Z.lor 0x80 (Z.land c 0x3F) :: utf8 r
      else if is_high_surrogate c then
        match r with
        | d :: r' =>
            if is_low_surrogate d then
              let cp := 0x10000 + Z.shiftl (c - 0xD800) 10 + (d - 0xDC00) in
              Z.lor 0xF0 (Z.shiftr cp 18)
                :: Z.lor 0x80 (Z.land (Z.shiftr cp 12) 0x3F)
                :: Z.lor 0x80 (Z.land (Z.shiftr cp 6) 0x3F)
                :: Z.lor 0x80 (Z.land cp 0x3F) :: utf8 r'
            else replacement_character ++ utf8 r
        | [] => replacement_character
        end
      else if is_low_surrogate c then replacement_character ++ utf8 r
      else
        Z.lor 0xE0 (Z.shiftr c 12)
          :: Z.lor 0x80 (Z.land (Z.shiftr c 6) 0x3F)
          :: Z.lor 0x80 (Z.land c 0x3F) :: utf8 r
  end.

(** 32-bit words as [Z] in [0, 2^32), addition wrapping around. *)
Definition add32 (x y : Z) : Z := (x + y) mod 2 ^ 32.
Definition rotr (n x : Z) : Z :=
  Z.lor (Z.shiftr x n) (Z.shiftl x (32 - n)) mod 2 ^ 32.
Definition not32 (x : Z) : Z := Z.lxor x 0xFFFFFFFF.

Definition Ch (x y z : Z) : Z := Z.lxor (Z.land x y) (Z.land (not32 x) z).
Definition Maj (x y z : Z) : Z :=
  Z.lxor (Z.lxor (Z.land x y) (Z.land x z)) (Z.land y z).
Definition Sigma0 (x : Z) : Z := Z.lxor (Z.lxor (rotr 2 x) (rotr 13 x)) (rotr 22 x).
Definition Sigma1 (x : Z) : Z := Z.lxor (Z.lxor (rotr 6 x) (rotr 11 x)) (rotr 25 x).
Definition sigma0 (x : Z) : Z := Z.lxor (Z.lxor (rotr 7 x) (rotr 18 x)) (Z.shiftr x 3).
Definition sigma1 (x : Z) : Z := Z.lxor (Z.lxor (rotr 17 x) (rotr 19 x)) (Z.shiftr x 10).

(** The constants are fractional parts of roots of the first primes
    (FIPS 180-4, 4.2.2 and 5.3.3), 32 bits of each. *)
Definition is_prime (p : nat) : bool :=
  forallb (fun d => negb (Nat.eqb (p mod d) 0)) (seq 2 (p - 2)).

Definition primes_below (n : nat) : list Z :=
  map Z.of_nat (filter is_prime (seq 2 (n - 2))).

(** The integer cube root of [n] below [2 ^ k], one bit at a time. *)
Fixpoint cube_root (k : nat) (n r : Z) : Z :=
  match k with
  | O => r
  | S k' =>
      let c := r + 2 ^ Z.of_nat k' in
      cube_root k' n (if c * c * c <=? n then c else r)
  end.

Definition K256 : list Z :=
  Eval vm_compute in
    map (fun p => cube_root 40 (p * 2 ^ 96) 0 mod 2 ^ 32) (primes_below 312).

(** The eight working variables, also the chaining value. *)
Record regs : Type := Regs { ra : Z; rb : Z; rc : Z; rd : Z; re : Z; rf : Z; rg : Z; rh : Z }.

Definition root_word (p : Z) : Z := Z.sqrt (p * 2 ^ 64) mod 2 ^ 32.

Definition H0 : regs :=
  Eval vm_compute in
    Regs (root_word 2) (root_word 3) (root_word 5) (root_word 7)
         (root_word 11) (root_word 13) (root_word 17) (root_word 19).

(** Big-endian bytes of a word, and words of a byte sequence. *)
Definition be32 (x : Z) : list Z :=
  [ Z.shiftr x 24 mod 256; Z.shiftr x 16 mod 256; Z.shiftr x 8 mod 256; x mod 256 ].

Definition be64 (x : Z) : list Z := be32 (Z.shiftr x 32 mod 2 ^ 32) ++ be32 (x mod 2 ^ 32).

Fixpoint words (bytes : list Z) : list Z :=
  match bytes with
  | b0 :: b1 :: b2 :: b3 :: r =>
      Z.lor (Z.lor (Z.shiftl b0 24) (Z.shiftl b1 16)) (Z.lor (Z.shiftl b2 8) b3) :: words r
  | _ => []
  end.

(** The message schedule: sixteen words of the block, extended to 64. *)
Fixpoint extend (n : nat) (w : list Z) : list Z :=
  match n with
  | O => w
  | S n' =>
      let t := length w in
      let at_ (i : nat) := nth (t - i) w 0 in
      extend n' (w ++ [add32 (add32 (sigma1 (at_ 2%nat)) (at_ 7%nat))
                             (add32 (sigma0 (at_ 15%nat)) (at_ 16%nat))])
  end.

Definition round (s : regs) (kw : Z * Z) : regs :=
  let t1 := add32 (add32 (add32 (rh s) (Sigma1 (re s))) (Ch (re s) (rf s) (rg s)))
                  (add32 (fst kw) (snd kw)) in
  let t2 := add32 (Sigma0 (ra s)) (Maj (ra s) (rb s) (rc s)) in
  Regs (add32 t1 t2) (ra s) (rb s) (rc s) (add32 (rd s) t1) (re s) (rf s) (rg s).

Definition compress (h : regs) (block : list Z) : regs :=
  let s := fold_left round (combine K256 (extend 48 (words block))) h in
  Regs (add32 (ra h) (ra s)) (add32 (rb h) (rb s)) (add32 (rc h) (rc s))
       (add32 (rd h) (rd s)) (add32 (re h) (re s)) (add32 (rf h) (rf s))
       (add32 (rg h) (rg s)) (add32 (rh h) (rh s)).

Definition pad (msg : list Z) : list Z :=
  let len := Z.of_nat (length msg) in
  msg ++ [0x80] ++ repeat 0 (Z.to_nat ((55 - len) mod 64)) ++ be64 (8 * len).

(** The padded message cut into 64-byte blocks; [n] bounds their number. *)
Fixpoint blocks (n : nat) (bytes : list Z) : list (list Z) :=
  match n, bytes with
  | S n', _ :: _ => take 64 bytes :: blocks n' (drop 64 bytes)
  | _, _ => []
  end.

Definition digest_bytes (h : regs) : list Z :=
  be32 (ra h) ++ be32 (rb h) ++ be32 (rc h) ++ be32 (rd h)
    ++ be32 (re h) ++ be32 (rf h) ++ be32 (rg h) ++ be32 (rh h).

Definition sha256 (msg : list Z) : list Z :=
  let p := pad msg in
  digest_bytes (fold_left compress (blocks (length p) p) H0).

(** HMAC (RFC 2104) with SHA-256: block size 64. *)
Definition hmac_key (key : list Z) : list Z :=
  let k := if (64 <? length key)%nat then sha256 key else key in
  k ++ repeat 0 (64 - length k)%nat.

Definition xor_pad (c : Z) (key : list Z) : list Z := map (Z.lxor c) key.

Definition hmac_sha256 (key msg : list Z) : list Z :=
  let k := hmac_key key in
  sha256 (xor_pad 0x5c k ++ sha256 (xor_pad 0x36 k ++ msg)).

(** Standard base64 (RFC 4648) with [=] padding. *)
Definition base64_alphabet : jsstring :=
  js "ABCDEFGHIJKLMNOPQRSTUVWXYZabcdefghijklmnopqrstuvwxyz0123456789+/".

Definition base64_char (n : Z) : Z := nth (Z.to_nat (n mod 64)) base64_alphabet 65.

Definition base64_pad : Z := 61.

Fixpoint base64 (bytes : list Z) : jsstring :=
  match bytes with
  | [] => []
  | [a] =>
      [ base64_char (Z.shiftr a 2); base64_char (Z.shiftl (Z.land a 3) 4);
        base64_pad; base64_pad ]
  | [a; b] =>
      [ base64_char (Z.shiftr a 2);
        base64_char (Z.lor (Z.shiftl (Z.land a 3) 4) (Z.shiftr b 4));
        base64_char (Z.shiftl (Z.land b 15) 2); base64_pad ]
  | a :: b :: c :: r =>
      base64_char (Z.shiftr a 2)
        :: base64_char (Z.lor (Z.shiftl (Z.land a 3) 4) (Z.shiftr b 4))
        :: base64_char (Z.lor (Z.shiftl (Z.land b 15) 2) (Z.shiftr c 6))
        :: base64_char (Z.land c 63) :: base64 r
  end.

(** [crypto.createHmac('sha256', key).update(data).digest('base64')] with
    string arguments, which are encoded as UTF-8. *)
Definition createHmac_sha256_base64 (key data : jsstring) : jsstring :=
  base64 (hmac_sha256 (utf8 key) (utf8 data)).

End Crypto.

(** ** JavaScript values *)

(** A number as [JSON.parse] reads it: the literal's mathematical value
    [(-1)^negative * mantissa * 10^exponent10], with [0 <= mantissa].  The
    Number value is that real rounded to the nearest double. *)
Record number : Type := Number { negative : bool; mantissa : Z; exponent10 : Z }.

(** The literal rounds to [+0] or [-0]: it is zero, or at most half the
    least positive double [2^-1074] (the tie goes to the even [0]). *)
Definition number_is_zero (n : number) : bool :=
  (mantissa n =? 0)
  || ((exponent10 n <? 0) && (mantissa n * 2 ^ 1075 <=? 10 ^ (- exponent10 n))).

#[local] Set Warnings "-register-all".

Inductive value : Type :=
| VUndefined
| VNull
| VBoolean (b : bool)
| VNumber (n : number)
| VString (s : jsstring)
| VArray (elems : list value)
| VObject (props : list (jsstring * value)).

(** [!v] is [negb (ToBoolean v)]. *)
Definition ToBoolean (v : value) : bool :=
  match v with
  | VUndefined | VNull => false
  | VBoolean b => b
  | VNumber n => negb (number_is_zero n)
  | VString s => negb (jsstring_eqb s [])
  | VArray _ | VObject _ => true
  end.

(** Own properties of an object in creation order, keys unique. *)
Fixpoint own_property (k : jsstring) (props : list (jsstring * value)) : option value :=
  match props with
  | [] => None
  | (k', v) :: r => if jsstring_eqb k k' then Some v else own_property k r
  end.

Fixpoint set_property (k : jsstring) (v : value) (props : list (jsstring * value))
  : list (jsstring * value) :=
  match props with
  | [] => [(k, v)]
  | (k', v') :: r =>
      if jsstring_eqb k k' then (k, v) :: r else (k', v') :: set_property k v r
  end.

(** What a handler can throw by itself. *)
Inductive Exception : Type :=
| SyntaxError   (* JSON.parse on text that is not JSON *)
| TypeError.    (* destructuring null, or an object without a string conversion *)

(** [const { k } = v] for one of the names the handlers read ([email],
    [username], [password], [code]), which no built-in prototype defines:
    the binding is the own property, or [undefined]; [null] cannot be
    destructured. *)
Definition destructure (v : value) : option (jsstring -> value) :=
  match v with
  | VUndefined | VNull => None
  | VObject props => Some (fun k => default VUndefined (own_property k props))
  | _ => Some (fun _ => VUndefined)
  end.

Section ToString.

(** [Number::toString], the shortest digits that read back as the same
    double: floating point, taken as given. *)
Variable Number_toString : number -> jsstring.

(** The string a value becomes as an operand of [+] beside a string.  An
    array joins its elements with commas; an object is [[object Object]]
    unless an own [toString] property, never callable in parsed JSON, hides
    [Object.prototype.toString]: then no conversion is left and [+] throws
    a TypeError.  This is the conversion the language defines, and
    [ToString v = Some s] reads: the conversion of [v] returns [s].  An
    engine also gives up, with a RangeError, on arrays nested deeper than
    its call stack allows; that limit is left out. *)
Fixpoint ToString (v : value) : option jsstring :=
  match v with
  | VUndefined => Some (js "undefined")
  | VNull => Some (js "null")
  | VBoolean b => Some (if b then js "true" else js "false")
  | VNumber n => Some (Number_toString n)
  | VString s => Some s
  | VArray elems =>
      (fix join (l : list value) : option jsstring :=
         match l with
         | [] => Some []
         | x :: r =>
             match (match x with
                    | VUndefined | VNull => Some []
                    | _ => ToString x
                    end) with
             | None => None
             | Some sx =>
                 match r with
                 | [] => Some sx
                 | _ :: _ =>
                     match join r with
                     | None => None
                     | Some sr => Some (sx ++ js "," ++ sr)
                     end
                 end
             end
         end) elems
  | VObject props =>
      match own_property (js "toString") props with
      | Some _ => None
      | None => Some (js "[object Object]")
      end
  end.

(** [v + s] for a string [s]: the concatenation of the two strings. *)
Definition plus (v : value) (s : jsstring) : option jsstring :=
  match ToString v with
  | Some sv => Some (sv ++ s)
  | None => None
  end.

End ToString.

(** ** JSON.parse and JSON.stringify *)

Module JSON.

Definition is_whitespace (c : Z) : bool :=
  (c =? 32) || (c =? 9) || (c =? 10) || (c =? 13).

Definition is_digit (c : Z) : bool := (48 <=? c) && (c <=? 57).

Definition hex_value (c : Z) : option Z :=
  if is_digit c then Some (c - 48)
  else if (97 <=? c) && (c <=? 102) then Some (c - 87)
  else if (65 <=? c) && (c <=? 70) then Some (c - 55)
  else None.

(** The character a two-character escape stands for. *)
Definition escape (e : Z) : option Z :=
  if e =? 34 then Some 34          (* quotation mark *)
  else if e =? 92 then Some 92     (* reverse solidus *)
  else if e =? 47 then Some 47     (* solidus *)
  else if e =? 98 then Some 8      (* b: backspace *)
  else if e =? 102 then Some 12    (* f: form feed *)
  else if e =? 110 then Some 10    (* n: line feed *)
  else if e =? 114 then Some 13    (* r: carriage return *)
  else if e =? 116 then Some 9     (* t: tab *)
  else None.

Definition cons_char (c : Z) (n : nat) (r : option (jsstring * nat)) : option (jsstring * nat) :=
  match r with
  | Some (s, m) => Some (c :: s, (n + m)%nat)
  | None => None
  end.

(** A string literal after its opening quote: its characters, and how many
    code units it spans up to and including the closing quote. *)
Fixpoint lex_string (l : list Z) : option (jsstring * nat) :=
  match l with
  | [] => None
  | c :: r =>
      if c =? 34 then Some ([], 1%nat)
      else if c =? 92 then
        match r with
        | [] => None
        | e :: r' =>
            if e =? 117 then
              match r' with
              | h1 :: h2 :: h3 :: h4 :: r'' =>
                  match hex_value h1, hex_value h2, hex_value h3, hex_value h4 with
                  | Some d1, Some d2, Some d3, Some d4 =>
                      cons_char (((d1 * 16 + d2) * 16 + d3) * 16 + d4) 6 (lex_string r'')
                  | _, _, _, _ => None
                  end
              | _ => None
              end
            else
              match escape e with
              | Some x => cons_char x 2 (lex_string r')
              | None => None
              end
        end
      else if c <? 32 then None
      else cons_char c 1 (lex_string r)
  end.

(** The values of the leading decimal digits. *)
Fixpoint digits_prefix (l : list Z) : list Z :=
  match l with
  | c :: r => if is_digit c then (c - 48) :: digits_prefix r else []
  | [] => []
  end.

Definition decimal (ds : list Z) : Z := fold_left (fun acc d => acc * 10 + d) ds 0.

(** A number literal [-? int frac? exp?] at the head of [l]: its value and
    the number of code units it spans.  A [.] or [e] that no digit follows
    is not part of the literal. *)
Definition lex_number (l : list Z) : option (number * nat) :=
  let '(neg, l1) :=
    match l with
    | c :: r => if c =? 45 then (true, r) else (false, l)
    | [] => (false, l)
    end in
  let int_digits :=
    match l1 with
    | c :: _ => if c =? 48 then [0] else digits_prefix l1
    | [] => []
    end in
  match int_digits with
  | [] => None
  | _ :: _ =>
      let l2 := drop (length int_digits) l1 in
      let frac_digits :=
        match l2 with
        | c :: r => if c =? 46 then digits_prefix r else []
        | [] => []
        end in
      let frac_len := match frac_digits with [] => 0%nat | _ :: _ => S (length frac_digits) end in
      let l3 := drop frac_len l2 in
      let '(exp, exp_len) :=
        match l3 with
        | c :: r =>
            if (c =? 101) || (c =? 69) then
              let '(exp_neg, sign_len) :=
                match r with
                | s :: _ => if s =? 45 then (true, 1%nat)
                            else if s =? 43 then (false, 1%nat) else (false, 0%nat)
                | [] => (false, 0%nat)
                end in
              match digits_prefix (drop sign_len r) with
              | [] => (0, 0%nat)
              | (_ :: _) as ds =>
                  (if exp_neg then - decimal ds else decimal ds, S (sign_len + length ds))
              end
            else (0, 0%nat)
        | [] => (0, 0%nat)
        end in
      Some (Number neg (decimal (int_digits ++ frac_digits))
                   (exp - Z.of_nat (length frac_digits)),
            ((if neg then 1 else 0) + length int_digits + frac_len + exp_len)%nat)
  end.

(** The parser is a pushdown automaton fed one code unit at a time. *)
Inductive frame : Type :=
| InArray (elems : list value)
| InObject (props : list (jsstring * value))
| AtKey (key : jsstring).

Inductive mode : Type :=
| ExpectValue
| ExpectValueOrClose   (* after [ *)
| ExpectKeyOrClose     (* after { *)
| ExpectKey            (* after , in an object *)
| ExpectColon
| ExpectCommaOrClose
| Finished (v : value).

Definition state : Type := list frame * mode.

(** A complete value goes to the innermost open array or object. *)
Definition deliver (v : value) (stack : list frame) : option state :=
  match stack with
  | [] => Some ([], Finished v)
  | InArray elems :: s => Some (InArray (elems ++ [v]) :: s, ExpectCommaOrClose)
  | AtKey k :: InObject props :: s =>
      Some (InObject (set_property k v props) :: s, ExpectCommaOrClose)
  | _ => None
  end.

Definition start_value (stack : list frame) (c : Z) (r : list Z) : option (state * nat) :=
  if c =? 91 then Some ((InArray [] :: stack, ExpectValueOrClose), 0%nat)
  else if c =? 123 then Some ((InObject [] :: stack, ExpectKeyOrClose), 0%nat)
  else if c =? 34 then
    match lex_string r with
    | Some (s, n) => (fun st => (st, n)) <$> deliver (VString s) stack
    | None => None
    end
  else if (c =? 110) && starts_with (js "ull") r then
    (fun st => (st, 3%nat)) <$> deliver VNull stack
  else if (c =? 116) && starts_with (js "rue") r then
    (fun st => (st, 3%nat)) <$> deliver (VBoolean true) stack
  else if (c =? 102) && starts_with (js "alse") r then
    (fun st => (st, 4%nat)) <$> deliver (VBoolean false) stack
  else
    match lex_number (c :: r) with
    | Some (n, len) => (fun st => (st, pred len)) <$> deliver (VNumber n) stack
    | None => None
    end.

Definition start_key (stack : list frame) (c : Z) (r : list Z) : option (state * nat) :=
  if c =? 34 then
    match lex_string r with
    | Some (k, n) => Some ((AtKey k :: stack, ExpectColon), n)
    | None => None
    end
  else None.

Definition close (stack : list frame) (c : Z) : option (state * nat) :=
  match stack with
  | InArray elems :: s =>
      if c =? 93 then (fun st => (st, 0%nat)) <$> deliver (VArray elems) s else None
  | InObject props :: s =>
      if c =? 125 then (fun st => (st, 0%nat)) <$> deliver (VObject props) s else None
  | _ => None
  end.

(** One step at code unit [c], the rest of the text being [r]: the next
    state and how many code units of [r] the token also covers. *)
Definition step (st : state) (c : Z) (r : list Z) : option (state * nat) :=
  let '(stack, m) := st in
  if is_whitespace c then Some (st, 0%nat)
  else
    match m with
    | ExpectValue => start_value stack c r
    | ExpectValueOrClose =>
        if c =? 93 then close stack c else start_value stack c r
    | ExpectKeyOrClose =>
        if c =? 125 then close stack c else start_key stack c r
    | ExpectKey => start_key stack c r
    | ExpectColon => if c =? 58 then Some ((stack, ExpectValue), 0%nat) else None
    | ExpectCommaOrClose =>
        if c =? 44 then
          match stack with
          | InArray _ :: _ => Some ((stack, ExpectValue), 0%nat)
          | InObject _ :: _ => Some ((stack, ExpectKey), 0%nat)
          | _ => None
          end
        else close stack c
    | Finished _ => None
    end.

Fixpoint drive (st : state) (skip : nat) (l : list Z) : option value :=
  match l with
  | [] =>
      match skip, st with
      | O, ([], Finished v) => Some v
      | _, _ => None
      end
  | c :: r =>
      match skip with
      | S k => drive st k r
      | O =>
          match step st c r with
          | Some (st', k) => drive st' k r
          | None => None
          end
      end
  end.

(** [JSON.parse(text)]: the value, or [None] where it throws a SyntaxError. *)
Definition parse (text : jsstring) : option value := drive ([], ExpectValue) 0 text.

Definition hex_digit (n : Z) : Z := nth (Z.to_nat n) (js "0123456789abcdef") 48.

Definition unicode_escape (c : Z) : jsstring :=
  [92; 117; hex_digit (Z.shiftr c 12 mod 16); hex_digit (Z.shiftr c 8 mod 16);
   hex_digit (Z.shiftr c 4 mod 16); hex_digit (c mod 16)].

(** The characters of [QuoteJSONString] between the quotes. *)
Fixpoint quote_chars (s : jsstring) : jsstring :=
  match s with
  | [] => []
  | c :: r =>
      if c =? 8 then js "\b" ++ quote_chars r
      else if c =? 9 then js "\t" ++ quote_chars r
      else if c =? 10 then js "\n" ++ quote_chars r
      else if c =? 12 then js "\f" ++ quote_chars r
      else if c =? 13 then js "\r" ++ quote_chars r
      else if c =? 34 then [92; 34] ++ quote_chars r
      else if c =? 92 then [92; 92] ++ quote_chars r
      else if c <? 32 then unicode_escape c ++ quote_chars r
      else if Crypto.is_high_surrogate c then
        match r with
        | d :: r' =>
            if Crypto.is_low_surrogate d then c :: d :: quote_chars r'
            else unicode_escape c ++ quote_chars r
        | [] => unicode_escape c
        end
      else if Crypto.is_low_surrogate c then unicode_escape c ++ quote_chars r
      else c :: quote_chars r
  end.

Definition quote (s : jsstring) : jsstring := [34] ++ quote_chars s ++ [34].

Fixpoint members (props : list (jsstring * option jsstring)) : list jsstring :=
  match props with
  | [] => []
  | (k, Some v) :: r => (quote k ++ [58] ++ quote v) :: members r
  | (_, None) :: r => members r
  end.

Fixpoint join_commas (l : list jsstring) : jsstring :=
  match l with
  | [] => []
  | [x] => x
  | x :: r => x ++ [44] ++ join_commas r
  end.

(** [JSON.stringify] of an object literal whose properties are strings or
    [undefined]; an [undefined] property is left out. *)
Definition stringify (props : list (jsstring * option jsstring)) : jsstring :=
  [123] ++ join_commas (members props) ++ [125].

End JSON.

(** ** The Lambda event, its result, and the Cognito client *)

Module APIGatewayProxyEvent.
Record t : Type := mk { headers : option (gmap jsstring jsstring); body : option jsstring }.
End APIGatewayProxyEvent.

Module APIGatewayProxyResult.
Record t : Type := mk { statusCode : Z; body : jsstring }.
End APIGatewayProxyResult.

Module GetUserRequest.
Record t : Type := mk { AccessToken : jsstring }.
End GetUserRequest.

Module InitiateAuthRequest.
Record AuthParametersType : Type :=
  mkAuthParameters { USERNAME : value; PASSWORD : value; SECRET_HASH : jsstring }.
Record t : Type :=
  mk { AuthFlow : jsstring; ClientId : jsstring; AuthParameters : AuthParametersType }.
End InitiateAuthRequest.

Module InitiateAuthResponse.
Record AuthenticationResultType : Type := mkAuthenticationResult { AccessToken : option jsstring }.
Record t : Type := mk { AuthenticationResult : option AuthenticationResultType }.
End InitiateAuthResponse.

Module SignUpRequest.
Record AttributeType : Type := mkAttribute { Name : jsstring; Value : value }.
Record t : Type :=
  mk { ClientId : jsstring; Password : value; Username : value;
       UserAttributes : list AttributeType; SecretHash : jsstring }.
End SignUpRequest.

Module ConfirmSignUpRequest.
Record t : Type :=
  mk { ClientId : jsstring; ConfirmationCode : value; Username : value;
       SecretHash : jsstring }.
End ConfirmSignUpRequest.

(** The error a provider call is rejected with; [message] may be missing. *)
Record AWSError : Type := mkError { message : option jsstring }.

(** The four operations of [AWS.CognitoIdentityServiceProvider] in use,
    indexed by the type of their success payload. *)
Inductive CognitoCall : Type -> Type :=
| getUser (params : GetUserRequest.t) : CognitoCall unit
| initiateAuth (params : InitiateAuthRequest.t) : CognitoCall InitiateAuthResponse.t
| signUp (params : SignUpRequest.t) : CognitoCall unit
| confirmSignUp (params : ConfirmSignUpRequest.t) : CognitoCall unit.

(** How [cognito.op(params).promise()] settles. *)
Inductive Settled (R : Type) : Type :=
| Fulfilled (response : R)
| Rejected (error : AWSError).
Arguments Fulfilled {R} response.
Arguments Rejected {R} error.

(** An async handler: it returns, throws, or awaits one provider call and
    goes on with the way that call settled.  A [try]/[catch] around the
    [await] is a continuation that handles [Rejected]. *)
Inductive Promise (A : Type) : Type :=
| Return (a : A)
| Throw (e : Exception)
| Await {R : Type} (call : CognitoCall R) (k : Settled R -> Promise A).
Arguments Return {A} a.
Arguments Throw {A} e.
Arguments Await {A R} call k.

(** The provider: how each call settles. *)
Definition Cognito : Type := forall R : Type, CognitoCall R -> Settled R.

Inductive Called : Type :=
| called {R : Type} (call : CognitoCall R).

Inductive Completion (A : Type) : Type :=
| Returned (a : A)
| Uncaught (e : Exception).
Arguments Returned {A} a.
Arguments Uncaught {A} e.

(** Running a handler against a provider: the calls made, in order, and
    how the invocation ends. *)
Fixpoint run {A : Type} (cognito : Cognito) (p : Promise A) : list Called * Completion A :=
  match p with
  | Return a => ([], Returned a)
  | Throw e => ([], Uncaught e)
  | Await call k =>
      let '(calls, c) := run cognito (k (cognito _ call)) in
      (called call :: calls, c)
  end.

Definition calls_of {A : Type} (cognito : Cognito) (p : Promise A) : list Called :=
  fst (run cognito p).

Definition outcome {A : Type} (cognito : Cognito) (p : Promise A) : Completion A :=
  snd (run cognito p).

(** [!s] for a string that may be [undefined] or [null]. *)
Definition falsy (s : option jsstring) : bool :=
  match s with
  | None => true
  | Some s => jsstring_eqb s []
  end.

(** [message || fallback]. *)
Definition or_else (s : option jsstring) (fallback : jsstring) : jsstring :=
  match s with
  | None => fallback
  | Some s => if jsstring_eqb s [] then fallback else s
  end.

(** Sequencing: the rest of the body runs on the value of what came
    before; a throw ends the invocation, as does a throw of the rest. *)
Fixpoint bind {A B : Type} (p : Promise A) (f : A -> Promise B) : Promise B :=
  match p with
  | Return a => f a
  | Throw e => Throw e
  | Await call k => Await call (fun settled => bind (k settled) f)
  end.

#[global] Instance Promise_ret : MRet Promise := @Return.
#[global] Instance Promise_bind : MBind Promise := fun A B f p => bind p f.

(** [await cognito.op(params).promise()] inside a [try] block: the way the
    call settled, for the code after it and the [catch] clause. *)
Definition await {R : Type} (call : CognitoCall R) : Promise (Settled R) := Await call Return.

(** A runtime operation that throws [e] where it has no result. *)
Definition or_throw {A : Type} (e : Exception) (result : option A) : Promise A :=
  match result with
  | Some a => Return a
  | None => Throw e
  end.

(** ** src/index.ts *)

Module Index.
Section Handlers.

(** The runtime's number formatting, and the two constants read from the
    process environment when the module is loaded. *)
Variable Number_toString : number -> jsstring.
Variables cognitoClientId cognitoClientSecret : jsstring.

(** [None] is the TypeError of [username + cognitoClientId]. *)
Definition calculateSecretHash (username : value) : option jsstring :=
  match plus Number_toString username cognitoClientId with
  | Some data => Some (Crypto.createHmac_sha256_base64 cognitoClientSecret data)
  | None => None
  end.

(** [JSON.stringify({ message })]. *)
Definition message_body (message : option jsstring) : jsstring :=
  JSON.stringify [(js "message", message)].

Definition authorize (event : APIGatewayProxyEvent.t) : Promise APIGatewayProxyResult.t :=
  let Authorization := APIGatewayProxyEvent.headers event ≫= (.!! js "Authorization") in
  if falsy Authorization then
    Return (APIGatewayProxyResult.mk 401
              (message_body (Some (js "Missing Authorization header"))))
  else
    let accessToken := String_replace (default [] Authorization) (js "Bearer ") [] in
    let params := GetUserRequest.mk accessToken in
    settled ← await (getUser params);
    match settled with
    | Fulfilled _ => Return (APIGatewayProxyResult.mk 200
                               (message_body (Some (js "Authorized"))))
    | Rejected error =>
        let message := message error in
        Return (APIGatewayProxyResult.mk 401 (message_body message))
    end.

Definition authenticate (event : APIGatewayProxyEvent.t) : Promise APIGatewayProxyResult.t :=
  if falsy (APIGatewayProxyEvent.body event) then
    Return (APIGatewayProxyResult.mk 400 (message_body (Some (js "Missing body"))))
  else
    parsed ← or_throw SyntaxError
               (JSON.parse (default [] (APIGatewayProxyEvent.body event)));
    field ← or_throw TypeError (destructure parsed);
    let username := field (js "username") in
    let password := field (js "password") in
    if negb (ToBoolean username) || negb (ToBoolean password) then
      Return (APIGatewayProxyResult.mk 400
                (message_body (Some (js "Missing username or password"))))
    else
      secretHash ← or_throw TypeError (calculateSecretHash username);
      let params :=
        InitiateAuthRequest.mk (js "USER_PASSWORD_AUTH") cognitoClientId
          (InitiateAuthRequest.mkAuthParameters username password secretHash) in
      settled ← await (initiateAuth params);
      match settled with
      | Fulfilled response =>
          let accessToken :=
            InitiateAuthResponse.AuthenticationResult response
              ≫= InitiateAuthResponse.AccessToken in
          if falsy accessToken then
            Return (APIGatewayProxyResult.mk 400
                      (message_body (Some (js "Invalid username or password"))))
          else
            Return (APIGatewayProxyResult.mk 200
                      (JSON.stringify [(js "accessToken", accessToken)]))
      | Rejected error =>
          let message := message error in
          Return (APIGatewayProxyResult.mk 400 (message_body message))
      end.

Definition register (event : APIGatewayProxyEvent.t) : Promise APIGatewayProxyResult.t :=
  if falsy (APIGatewayProxyEvent.body event) then
    Return (APIGatewayProxyResult.mk 400 (message_body (Some (js "Missing body"))))
  else
    parsed ← or_throw SyntaxError
               (JSON.parse (default [] (APIGatewayProxyEvent.body event)));
    field ← or_throw TypeError (destructure parsed);
    let email := field (js "email") in
    let username := field (js "username") in
    let password := field (js "password") in
    if negb (ToBoolean email) || negb (ToBoolean username) || negb (ToBoolean password) then
      Return (APIGatewayProxyResult.mk 400
                (message_body (Some (js "Missing email, username or password"))))
    else
      secretHash ← or_throw TypeError (calculateSecretHash username);
      let params :=
        SignUpRequest.mk cognitoClientId password username
          [SignUpRequest.mkAttribute (js "email") email] secretHash in
      settled ← await (signUp params);
      match settled with
      | Fulfilled _ => Return (APIGatewayProxyResult.mk 200
                                 (message_body (Some (js "User created"))))
      | Rejected error =>
          let message := message error in
          Return (APIGatewayProxyResult.mk 400 (message_body message))
      end.

Definition confirm (event : APIGatewayProxyEvent.t) : Promise APIGatewayProxyResult.t :=
  if falsy (APIGatewayProxyEvent.body event) then
    Return (APIGatewayProxyResult.mk 400 (message_body (Some (js "Missing body"))))
  else
    parsed ← or_throw SyntaxError
               (JSON.parse (default [] (APIGatewayProxyEvent.body event)));
    field ← or_throw TypeError (destructure parsed);
    let username := field (js "username") in
    let code := field (js "code") in
    if negb (ToBoolean username) || negb (ToBoolean code) then
      Return (APIGatewayProxyResult.mk 400
                (message_body (Some (js "Missing username or code"))))
    else
      secretHash ← or_throw TypeError (calculateSecretHash username);
      let params := ConfirmSignUpRequest.mk cognitoClientId code username secretHash in
      settled ← await (confirmSignUp params);
      match settled with
      | Fulfilled _ => Return (APIGatewayProxyResult.mk 200
                                 (message_body (Some (js "User confirmed"))))
      | Rejected error =>
          let message := message error in
          Return (APIGatewayProxyResult.mk 400 (message_body message))
      end.

End Handlers.
End Index.

(** ** The revision built on [respond] *)

Module Refactored.
Section Handlers.

(** The runtime's number formatting, and the two constants read from the
    process environment when the module is loaded. *)
Variable Number_toString : number -> jsstring.
Variables cognitoClientId cognitoClientSecret : jsstring.

(** [None] is the TypeError of [username + cognitoClientId]. *)
Definition calculateSecretHash (username : value) : option jsstring :=
  match plus Number_toString username cognitoClientId with
  | Some data => Some (Crypto.createHmac_sha256_base64 cognitoClientSecret data)
  | None => None
  end.

Definition respond (statusCode : Z) (message : jsstring) : APIGatewayProxyResult.t :=
  APIGatewayProxyResult.mk statusCode (JSON.stringify [(js "message", Some message)]).

Definition authorize (event : APIGatewayProxyEvent.t) : Promise APIGatewayProxyResult.t :=
  let Authorization := APIGatewayProxyEvent.headers event ≫= (.!! js "Authorization") in
  if falsy Authorization then
    Return (respond 401 (js "Missing Authorization header"))
  else
    let accessToken := String_replace (default [] Authorization) (js "Bearer ") [] in
    let params := GetUserRequest.mk accessToken in
    settled ← await (getUser params);
    match settled with
    | Fulfilled _ => Return (respond 200 (js "Authorized"))
    | Rejected error =>
        Return (respond 401 (or_else (message error) (js "Unauthorized")))
    end.

Definition authenticate (event : APIGatewayProxyEvent.t) : Promise APIGatewayProxyResult.t :=
  if falsy (APIGatewayProxyEvent.body event) then
    Return (respond 400 (js "Missing body"))
  else
    parsed ← or_throw SyntaxError
               (JSON.parse (default [] (APIGatewayProxyEvent.body event)));
    field ← or_throw TypeError (destructure parsed);
    let username := field (js "username") in
    let password := field (js "password") in
    if negb (ToBoolean username) || negb (ToBoolean password) then
      Return (respond 400 (js "Missing username or password"))
    else
      secretHash ← or_throw TypeError (calculateSecretHash username);
      let params :=
        InitiateAuthRequest.mk (js "USER_PASSWORD_AUTH") cognitoClientId
          (InitiateAuthRequest.mkAuthParameters username password secretHash) in
      settled ← await (initiateAuth params);
      match settled with
      | Fulfilled response =>
          let accessToken :=
            InitiateAuthResponse.AuthenticationResult response
              ≫= InitiateAuthResponse.AccessToken in
          if falsy accessToken then
            Return (respond 400 (js "Invalid username or password"))
          else
            Return (respond 200 (default [] accessToken))
      | Rejected error =>
          Return (respond 400 (or_else (message error) (js "Authentication failed")))
      end.

Definition register (event : APIGatewayProxyEvent.t) : Promise APIGatewayProxyResult.t :=
  if falsy (APIGatewayProxyEvent.body event) then
    Return (respond 400 (js "Missing body"))
  else
    parsed ← or_throw SyntaxError
               (JSON.parse (default [] (APIGatewayProxyEvent.body event)));
    field ← or_throw TypeError (destructure parsed);
    let email := field (js "email") in
    let username := field (js "username") in
    let password := field (js "password") in
    if negb (ToBoolean email) || negb (ToBoolean username) || negb (ToBoolean password) then
      Return (respond 400 (js "Missing email, username, or password"))
    else
      secretHash ← or_throw TypeError (calculateSecretHash username);
      let params :=
        SignUpRequest.mk cognitoClientId password username
          [SignUpRequest.mkAttribute (js "email") email] secretHash in
      settled ← await (signUp params);
      match settled with
      | Fulfilled _ => Return (respond 200 (js "User created"))
      | Rejected error =>
          Return (respond 400 (or_else (message error) (js "User registration failed")))
      end.

Definition confirm (event : APIGatewayProxyEvent.t) : Promise APIGatewayProxyResult.t :=
  if falsy (APIGatewayProxyEvent.body event) then
    Return (respond 400 (js "Missing body"))
  else
    parsed ← or_throw SyntaxError
               (JSON.parse (default [] (APIGatewayProxyEvent.body event)));
    field ← or_throw TypeError (destructure parsed);
    let username := field (js "username") in
    let code := field (js "code") in
    if negb (ToBoolean username) || negb (ToBoolean code) then
      Return (respond 400 (js "Missing username or code"))
    else
      secretHash ← or_throw TypeError (calculateSecretHash username);
      let params := ConfirmSignUpRequest.mk cognitoClientId code username secretHash in
      settled ← await (confirmSignUp params);
      match settled with
      | Fulfilled _ => Return (respond 200 (js "User confirmed"))
      | Rejected error =>
          Return (respond 400 (or_else (message error) (js "Confirmation failed")))
      end.

End Handlers.
End Refactored.

(** ** The earlier draft of authenticate *)

(** src/index.ts, after the manual tests: [authenticate] before it got its
    body check and its [try] block. *)
Module Draft.
Section Handlers.

Variable Number_toString : number -> jsstring.
Variables cognitoClientId cognitoClientSecret : jsstring.

Definition calculateSecretHash (username : value) : option jsstring :=
  match plus Number_toString username cognitoClientId with
  | Some data => Some (Crypto.createHmac_sha256_base64 cognitoClientSecret data)
  | None => None
  end.

(** How the invocation ends when nothing is thrown by the handler itself:
    with a response, or, the [await] standing outside any [try], with the
    error the provider call was rejected with. *)
Inductive Ending : Type :=
| Answer (response : APIGatewayProxyResult.t)
| Rejection (error : AWSError).

(** [JSON.parse(event.body)] converts its argument to a string first: a
    body that is [null] is parsed as the text [null]. *)
Definition authenticate (event : APIGatewayProxyEvent.t) : Promise Ending :=
  parsed ← or_throw SyntaxError
             (JSON.parse (default (js "null") (APIGatewayProxyEvent.body event)));
  field ← or_throw TypeError (destructure parsed);
  let username := field (js "username") in
  let password := field (js "password") in
  if negb (ToBoolean username) || negb (ToBoolean password) then
    Return (Answer (APIGatewayProxyResult.mk 400
                      (JSON.stringify
                         [(js "message", Some (js "Missing username or password"))])))
  else
    secretHash ← or_throw TypeError (calculateSecretHash username);
    let params :=
      InitiateAuthRequest.mk (js "USER_PASSWORD_AUTH") cognitoClientId
        (InitiateAuthRequest.mkAuthParameters username password secretHash) in
    settled ← await (initiateAuth params);
    match settled with
    | Rejected error => Return (Rejection error)
    | Fulfilled response =>
        let accessToken :=
          InitiateAuthResponse.AuthenticationResult response
            ≫= InitiateAuthResponse.AccessToken in
        if falsy accessToken then
          Return (Answer (APIGatewayProxyResult.mk 400
                            (JSON.stringify
                               [(js "message", Some (js "Invalid username or password"))])))
        else
          Return (Answer (APIGatewayProxyResult.mk 200
                            (JSON.stringify [(js "accessToken", accessToken)])))
    end.

End Handlers.
End Draft.

(** ** Vocabulary of the properties *)

(** The two revisions, and the three handlers that read a JSON body. *)
Inductive revision : Type := SrcIndex | WithRespond.
Inductive body_handler : Type := Authenticate | Register | Confirm.

Inductive provider_outcome : Type :=
| Accepted (accessToken : option jsstring)
| Refused (reason : option jsstring).

Section Dispatch.

Variable Number_toString : number -> jsstring.
Variables cognitoClientId cognitoClientSecret : jsstring.

Definition authorize_of (rev : revision)
  : APIGatewayProxyEvent.t -> Promise APIGatewayProxyResult.t :=
  match rev with
  | SrcIndex => Index.authorize
  | WithRespond => Refactored.authorize
  end.

Definition handler_of (rev : revision) (h : body_handler)
  : APIGatewayProxyEvent.t -> Promise APIGatewayProxyResult.t :=
  match rev, h with
  | SrcIndex, Authenticate =>
      Index.authenticate Number_toString cognitoClientId cognitoClientSecret
  | SrcIndex, Register =>
      Index.register Number_toString cognitoClientId cognitoClientSecret
  | SrcIndex, Confirm =>
      Index.confirm Number_toString cognitoClientId cognitoClientSecret
  | WithRespond, Authenticate =>
      Refactored.authenticate Number_toString cognitoClientId cognitoClientSecret
  | WithRespond, Register =>
      Refactored.register Number_toString cognitoClientId cognitoClientSecret
  | WithRespond, Confirm =>
      Refactored.confirm Number_toString cognitoClientId cognitoClientSecret
  end.

Definition calculateSecretHash_of (rev : revision) : value -> option jsstring :=
  match rev with
  | SrcIndex => Index.calculateSecretHash Number_toString cognitoClientId cognitoClientSecret
  | WithRespond =>
      Refactored.calculateSecretHash Number_toString cognitoClientId cognitoClientSecret
  end.

(** The request each body handler builds once validation has passed. *)
Definition initiateAuth_params (field : jsstring -> value) (secretHash : jsstring)
  : InitiateAuthRequest.t :=
  InitiateAuthRequest.mk (js "USER_PASSWORD_AUTH") cognitoClientId
    (InitiateAuthRequest.mkAuthParameters
       (field (js "username")) (field (js "password")) secretHash).

Definition signUp_params (field : jsstring -> value) (secretHash : jsstring)
  : SignUpRequest.t :=
  SignUpRequest.mk cognitoClientId (field (js "password")) (field (js "username"))
    [SignUpRequest.mkAttribute (js "email") (field (js "email"))] secretHash.

Definition confirmSignUp_params (field : jsstring -> value) (secretHash : jsstring)
  : ConfirmSignUpRequest.t :=
  ConfirmSignUpRequest.mk cognitoClientId (field (js "code")) (field (js "username"))
    secretHash.

Definition provider_call (h : body_handler) (field : jsstring -> value) (secretHash : jsstring)
  : Called :=
  match h with
  | Authenticate => called (initiateAuth (initiateAuth_params field secretHash))
  | Register => called (signUp (signUp_params field secretHash))
  | Confirm => called (confirmSignUp (confirmSignUp_params field secretHash))
  end.

(** What the handler learns from that call: acceptance, with the access
    token for [initiateAuth], or refusal with the error's message. *)
Definition consult (cognito : Cognito) (h : body_handler) (field : jsstring -> value)
  (secretHash : jsstring) : provider_outcome :=
  match h with
  | Authenticate =>
      match cognito _ (initiateAuth (initiateAuth_params field secretHash)) with
      | Fulfilled response =>
          Accepted (InitiateAuthResponse.AuthenticationResult response
                      ≫= InitiateAuthResponse.AccessToken)
      | Rejected error => Refused (message error)
      end
  | Register =>
      match cognito _ (signUp (signUp_params field secretHash)) with
      | Fulfilled _ => Accepted None
      | Rejected error => Refused (message error)
      end
  | Confirm =>
      match cognito _ (confirmSignUp (confirmSignUp_params field secretHash)) with
      | Fulfilled _ => Accepted None
      | Rejected error => Refused (message error)
      end
  end.

End Dispatch.

(** The fields each handler requires, in the order it tests them. *)
Definition required_fields (h : body_handler) : list jsstring :=
  match h with
  | Authenticate => [js "username"; js "password"]
  | Register => [js "email"; js "username"; js "password"]
  | Confirm => [js "username"; js "code"]
  end.

Definition some_field_falsy (h : body_handler) (field : jsstring -> value) : bool :=
  existsb (fun k => negb (ToBoolean (field k))) (required_fields h).

Definition missing_fields_message (rev : revision) (h : body_handler) : jsstring :=
  match h, rev with
  | Authenticate, _ => js "Missing username or password"
  | Register, SrcIndex => js "Missing email, username or password"
  | Register, WithRespond => js "Missing email, username, or password"
  | Confirm, _ => js "Missing username or code"
  end.

Definition fallback_message (h : body_handler) : jsstring :=
  match h with
  | Authenticate => js "Authentication failed"
  | Register => js "User registration failed"
  | Confirm => js "Confirmation failed"
  end.

(** A response whose body is the object with the one key [message]. *)
Definition message_response (statusCode : Z) (message : jsstring) : APIGatewayProxyResult.t :=
  APIGatewayProxyResult.mk statusCode (JSON.stringify [(js "message", Some message)]).

(** The JSON text of an object with one key, for a key and a value that
    need no escaping: opening brace, the quoted key, a colon, the quoted
    value, closing brace. *)
Definition object_text (key text : jsstring) : jsstring :=
  [123; 34] ++ key ++ [34; 58; 34] ++ text ++ [34; 125].

(** A code unit that [JSON.stringify] copies as it is. *)
Definition plain (c : Z) : Prop := 32 <= c < 0xD800 /\ c <> 34 /\ c <> 92.

(** A code unit of a well-formed string. *)
Definition code_unit (c : Z) : Prop := 0 <= c < 65536.

(** The parser never finishes with [undefined]. *)
Definition defined_mode (m : JSON.mode) : Prop :=
  match m with
  | JSON.Finished v => v <> VUndefined
  | _ => True
  end.

(** How the body of a request is received: the text, when it is truthy. *)
Definition body_text (event : APIGatewayProxyEvent.t) : option jsstring :=
  match APIGatewayProxyEvent.body event with
  | Some b => if jsstring_eqb b [] then None else Some b
  | None => None
  end.

(** The header the handler reads, when it is truthy. *)
Definition authorization (event : APIGatewayProxyEvent.t) : option jsstring :=
  match APIGatewayProxyEvent.headers event ≫= (.!! js "Authorization") with
  | Some h => if jsstring_eqb h [] then None else Some h
  | None => None
  end.

(** The answer to a settled provider call, by revision and handler. *)
Definition reply (rev : revision) (h : body_handler) (o : provider_outcome)
  : APIGatewayProxyResult.t :=
  match o with
  | Refused reason =>
      match rev with
      | SrcIndex => APIGatewayProxyResult.mk 400 (JSON.stringify [(js "message", reason)])
      | WithRespond => message_response 400 (or_else reason (fallback_message h))
      end
  | Accepted token =>
      match h with
      | Authenticate =>
          if falsy token then message_response 400 (js "Invalid username or password")
          else
            match rev with
            | SrcIndex =>
                APIGatewayProxyResult.mk 200 (JSON.stringify [(js "accessToken", token)])
            | WithRespond => message_response 200 (default [] token)
            end
      | Register => message_response 200 (js "User created")
      | Confirm => message_response 200 (js "User confirmed")
      end
  end.

(** The six body handlers in one description: the steps they share, with
    the handler and the revision choosing fields, messages and call.
    [run_handler_of] proves that the code runs exactly so. *)
Definition uniform_run (Number_toString : number -> jsstring)
  (cognitoClientId cognitoClientSecret : jsstring) (cognito : Cognito)
  (rev : revision) (h : body_handler) (event : APIGatewayProxyEvent.t)
  : list Called * Completion APIGatewayProxyResult.t :=
  match body_text event with
  | None => ([], Returned (message_response 400 (js "Missing body")))
  | Some text =>
      match JSON.parse text with
      | None => ([], Uncaught SyntaxError)
      | Some parsed =>
          match destructure parsed with
          | None => ([], Uncaught TypeError)
          | Some field =>
              if some_field_falsy h field then
                ([], Returned (message_response 400 (missing_fields_message rev h)))
              else
                match calculateSecretHash_of Number_toString cognitoClientId
                        cognitoClientSecret rev (field (js "username")) with
                | None => ([], Uncaught TypeError)
                | Some secretHash =>
                    ([provider_call cognitoClientId h field secretHash],
                     Returned (reply rev h (consult cognitoClientId cognito h field secretHash)))
                end
          end
      end
  end.

(** Providers and a runtime for the worked examples. *)
Definition accepting (token : option jsstring) : Cognito :=
  fun R call =>
    match call in CognitoCall R' return Settled R' with
    | getUser _ => Fulfilled tt
    | initiateAuth _ =>
        Fulfilled (InitiateAuthResponse.mk
                     (Some (InitiateAuthResponse.mkAuthenticationResult token)))
    | signUp _ => Fulfilled tt
    | confirmSignUp _ => Fulfilled tt
    end.

Definition rejecting (reason : option jsstring) : Cognito :=
  fun R _ => Rejected (mkError reason).

(** No example below turns a number into a string, so this formatting is
    never read. *)
Definition unread_format : number -> jsstring := fun _ => [].

(** A text written with an apostrophe for each quotation mark. *)
Fixpoint quoted (s : string) : jsstring :=
  match s with
  | EmptyString => []
  | String a r => (if Ascii.eqb a "'" then 34 else Z.of_N (N_of_ascii a)) :: quoted r
  end.

Definition request (body : string) : APIGatewayProxyEvent.t :=
  APIGatewayProxyEvent.mk None (Some (quoted body)).

Definition request_with_header (name value : string) : APIGatewayProxyEvent.t :=
  APIGatewayProxyEvent.mk (Some {[ js name := js value ]}) None.

(** ** Vocabulary of the further properties *)

(** How an invocation ends, up to the body of the response: the status
    code, or the error thrown. *)
Definition ending_status (c : Completion APIGatewayProxyResult.t) : Completion Z :=
  match c with
  | Returned response => Returned (APIGatewayProxyResult.statusCode response)
  | Uncaught e => Uncaught e
  end.

(** An ending of src/index.ts's [authenticate] as an ending of the draft. *)
Definition as_draft (c : Completion APIGatewayProxyResult.t) : Completion Draft.Ending :=
  match c with
  | Returned response => Returned (Draft.Answer response)
  | Uncaught e => Uncaught e
  end.

(** What a provider call of a body handler carries besides the fields. *)
Definition client_id_of (c : Called) : option jsstring :=
  match c with
  | called (getUser _) => None
  | called (initiateAuth params) => Some (InitiateAuthRequest.ClientId params)
  | called (signUp params) => Some (SignUpRequest.ClientId params)
  | called (confirmSignUp params) => Some (ConfirmSignUpRequest.ClientId params)
  end.

Definition secret_hash_of (c : Called) : option jsstring :=
  match c with
  | called (getUser _) => None
  | called (initiateAuth params) =>
      Some (InitiateAuthRequest.SECRET_HASH (InitiateAuthRequest.AuthParameters params))
  | called (signUp params) => Some (SignUpRequest.SecretHash params)
  | called (confirmSignUp params) => Some (ConfirmSignUpRequest.SecretHash params)
  end.

(** * Properties *)

Arguments JSON.parse : simpl never.
Arguments JSON.stringify : simpl never.
Arguments Crypto.createHmac_sha256_base64 : simpl never.
Arguments Crypto.sha256 : simpl never.
Arguments String_replace : simpl never.
Arguments js : simpl never.

(** ** Strings *)

Lemma jsstring_eqb_eq (s t : jsstring) : jsstring_eqb s t = true <-> s = t.
Proof. unfold jsstring_eqb. apply bool_decide_eq_true. Qed.

Lemma jsstring_eqb_neq (s t : jsstring) : jsstring_eqb s t = false <-> s <> t.
Proof. unfold jsstring_eqb. apply bool_decide_eq_false. Qed.

Lemma starts_with_app (pat r : jsstring) : starts_with pat (pat ++ r) = true.
Proof.
  induction pat as [|p pat IH]; simpl; [reflexivity|].
  rewrite Z.eqb_refl. exact IH.
Qed.

Lemma starts_with_inv (pat s : jsstring) :
  starts_with pat s = true -> exists r, s = pat ++ r.
Proof.
  revert s. induction pat as [|p pat IH]; intros s H.
  - exists s. reflexivity.
  - destruct s as [|c s]; simpl in H; [discriminate|].
    apply andb_true_iff in H as [Hc Hs].
    apply Z.eqb_eq in Hc. subst c.
    destruct (IH s Hs) as [r ->]. exists r. reflexivity.
Qed.

Lemma indexOf_unfold (pat s : jsstring) :
  indexOf pat s =
    if starts_with pat s then Some 0%nat
    else match s with
         | [] => None
         | _ :: s' => S <$> indexOf pat s'
         end.
Proof. destruct s; reflexivity. Qed.

(** [indexOf] finds an occurrence, and no occurrence starts before it. *)
Lemma indexOf_Some (pat s : jsstring) (i : nat) :
  indexOf pat s = Some i ->
  (exists pre post, s = pre ++ pat ++ post /\ length pre = i)
  /\ (forall pre post, s = pre ++ pat ++ post -> (i <= length pre)%nat).
Proof.
  revert i. induction s as [|c s IH]; intros i H; rewrite indexOf_unfold in H.
  - destruct (starts_with pat []) eqn:E; [|discriminate].
    injection H as <-. split; [|intros; lia].
    apply starts_with_inv in E as [r Hr]. exists [], r. split; [exact Hr|reflexivity].
  - destruct (starts_with pat (c :: s)) eqn:E.
    + injection H as <-. split; [|intros; lia].
      apply starts_with_inv in E as [r Hr]. exists [], r. split; [exact Hr|reflexivity].
    + destruct (indexOf pat s) as [j|] eqn:Ej; [|discriminate].
      simpl in H. injection H as <-.
      destruct (IH j eq_refl) as [(pre & post & Hs & Hlen) Hmin]. split.
      * exists (c :: pre), post. split; [rewrite Hs; reflexivity|simpl; lia].
      * intros pre' post' Hs'. destruct pre' as [|c' pre'].
        -- simpl in Hs'. rewrite Hs', starts_with_app in E. discriminate.
        -- simpl in Hs'. injection Hs' as _ Hs'. specialize (Hmin _ _ Hs'). simpl. lia.
Qed.

Lemma indexOf_None (pat s : jsstring) :
  indexOf pat s = None -> forall pre post, s <> pre ++ pat ++ post.
Proof.
  induction s as [|c s IH]; intros H pre post Hs; rewrite indexOf_unfold in H.
  - destruct (starts_with pat []) eqn:E; [discriminate|].
    destruct pre; [|discriminate]. simpl in Hs. rewrite Hs, starts_with_app in E. discriminate.
  - destruct (starts_with pat (c :: s)) eqn:E; [discriminate|].
    destruct (indexOf pat s) eqn:Ej; [discriminate|].
    destruct pre as [|c' pre].
    + simpl in Hs. rewrite Hs, starts_with_app in E. discriminate.
    + simpl in Hs. injection Hs as _ Hs. exact (IH eq_refl _ _ Hs).
Qed.

(** Only the first occurrence goes. *)
Lemma String_replace_first (pat rep pre post : jsstring) :
  (forall pre' post', pre ++ pat ++ post = pre' ++ pat ++ post' ->
                      (length pre <= length pre')%nat) ->
  String_replace (pre ++ pat ++ post) pat rep = pre ++ rep ++ post.
Proof.
  intros Hfirst. unfold String_replace.
  destruct (indexOf pat (pre ++ pat ++ post)) as [i|] eqn:E.
  - destruct (indexOf_Some _ _ _ E) as [(pre1 & post1 & Hs & Hlen) Hmin].
    assert (i = length pre) as ->.
    { specialize (Hmin pre post eq_refl). specialize (Hfirst pre1 post1 Hs). lia. }
    rewrite take_app_length.
    replace (length pre + length pat)%nat with (length (pre ++ pat))
      by (rewrite length_app; reflexivity).
    rewrite (app_assoc pre pat post), drop_app_length. reflexivity.
  - exfalso. exact (indexOf_None _ _ E pre post eq_refl).
Qed.

Lemma String_replace_absent (s pat rep : jsstring) :
  (forall pre post, s <> pre ++ pat ++ post) -> String_replace s pat rep = s.
Proof.
  intros Habs. unfold String_replace.
  destruct (indexOf pat s) as [i|] eqn:E; [|reflexivity].
  destruct (indexOf_Some _ _ _ E) as [(pre & post & Hs & _) _].
  exfalso. exact (Habs pre post Hs).
Qed.

(** Text without quotation marks, reverse solidi, control characters or
    surrogates is quoted as it is. *)
Lemma quote_chars_plain (s : jsstring) : Forall plain s -> JSON.quote_chars s = s.
Proof.
  induction 1 as [|c s [Hrange [Hq Hb]] _ IH]; [reflexivity|].
  simpl. rewrite IH.
  repeat match goal with
         | |- context [?a =? ?b] => destruct (Z.eqb_spec a b); [lia|]
         end.
  destruct (Z.ltb_spec c 32); [lia|].
  unfold Crypto.is_high_surrogate, Crypto.is_low_surrogate.
  destruct (Z.leb_spec 0xD800 c); [lia|].
  destruct (Z.leb_spec 0xDC00 c); [lia|].
  reflexivity.
Qed.

Example object_text_reads :
  object_text (js "message") (js "Missing body") = quoted "{'message':'Missing body'}".
Proof. reflexivity. Qed.

Lemma stringify_plain (key text : jsstring) :
  Forall plain key -> Forall plain text ->
  JSON.stringify [(key, Some text)] = object_text key text.
Proof.
  intros Hk Ht. unfold JSON.stringify, object_text. cbn [JSON.members JSON.join_commas].
  unfold JSON.quote. rewrite (quote_chars_plain _ Hk), (quote_chars_plain _ Ht).
  rewrite <- !app_assoc. reflexivity.
Qed.

(** ** JSON text read back *)

Lemma hex_value_digit (n : Z) :
  0 <= n < 16 -> JSON.hex_value (JSON.hex_digit n) = Some n.
Proof.
  intros H. rewrite <- (Z2Nat.id n) by lia.
  assert (Hm : (Z.to_nat n < 16)%nat) by lia. revert Hm.
  generalize (Z.to_nat n) as m. intros m Hm.
  do 16 (destruct m as [|m]; [reflexivity|]). lia.
Qed.

Lemma hex_digits_value (c : Z) :
  code_unit c ->
  (((Z.shiftr c 12 mod 16) * 16 + Z.shiftr c 8 mod 16) * 16 + Z.shiftr c 4 mod 16) * 16
  + c mod 16 = c.
Proof.
  unfold code_unit. intros H. rewrite !Z.shiftr_div_pow2 by lia.
  change (2 ^ 12) with 4096. change (2 ^ 8) with 256. change (2 ^ 4) with 16.
  Z.div_mod_to_equations. lia.
Qed.

Lemma lex_unicode_escape (c : Z) (rest : jsstring) :
  code_unit c ->
  JSON.lex_string (JSON.unicode_escape c ++ rest)
  = JSON.cons_char c 6 (JSON.lex_string rest).
Proof.
  intros H. unfold JSON.unicode_escape. cbn [app JSON.lex_string].
  change (92 =? 34) with false. change (92 =? 92) with true. change (117 =? 117) with true.
  cbv iota.
  rewrite !hex_value_digit by (apply Z.mod_pos_bound; lia).
  rewrite (hex_digits_value c H). reflexivity.
Qed.

Lemma lex_plain_char (c : Z) (l : jsstring) :
  32 <= c -> c <> 34 -> c <> 92 ->
  JSON.lex_string (c :: l) = JSON.cons_char c 1 (JSON.lex_string l).
Proof.
  intros H32 H34 H92. cbn [JSON.lex_string].
  destruct (Z.eqb_spec c 34); [contradiction|].
  destruct (Z.eqb_spec c 92); [contradiction|].
  destruct (Z.ltb_spec c 32); [lia|]. reflexivity.
Qed.

Lemma lex_escaped_char (e x : Z) (l : jsstring) :
  e <> 117 -> JSON.escape e = Some x ->
  JSON.lex_string (92 :: e :: l) = JSON.cons_char x 2 (JSON.lex_string l).
Proof.
  intros He Hx. cbn [JSON.lex_string].
  change (92 =? 34) with false. change (92 =? 92) with true. cbv iota.
  destruct (Z.eqb_spec e 117); [contradiction|]. rewrite Hx. reflexivity.
Qed.

(** The lexer reads back what [QuoteJSONString] wrote. *)
Lemma lex_quote_chars (s rest : jsstring) :
  Forall code_unit s ->
  JSON.lex_string (JSON.quote_chars s ++ 34 :: rest)
  = Some (s, S (length (JSON.quote_chars s))).
Proof.
  remember (length s) as n eqn:Hn. revert s Hn.
  induction n as [n IH] using lt_wf_ind. intros s Hn Hs.
  destruct s as [|c r]; [reflexivity|].
  inversion Hs as [|? ? Hc Hr]; subst.
  assert (IHr : JSON.lex_string (JSON.quote_chars r ++ 34 :: rest)
                = Some (r, S (length (JSON.quote_chars r)))).
  { apply (IH (length r)); [simpl; lia|reflexivity|exact Hr]. }
  assert (Hesc : forall e x, e <> 117 -> JSON.escape e = Some x ->
                 JSON.lex_string (([92; e] ++ JSON.quote_chars r) ++ 34 :: rest)
                 = Some (x :: r, S (length ([92; e] ++ JSON.quote_chars r)))).
  { intros e x He Hx. cbn [app]. rewrite (lex_escaped_char e x _ He Hx), IHr. reflexivity. }
  assert (Huni : JSON.lex_string ((JSON.unicode_escape c ++ JSON.quote_chars r) ++ 34 :: rest)
                 = Some (c :: r, S (length (JSON.unicode_escape c ++ JSON.quote_chars r)))).
  { rewrite <- app_assoc, (lex_unicode_escape c _ Hc), IHr. reflexivity. }
  cbn [JSON.quote_chars].
  destruct (Z.eqb_spec c 8) as [->|]; [exact (Hesc 98 8 ltac:(lia) eq_refl)|].
  destruct (Z.eqb_spec c 9) as [->|]; [exact (Hesc 116 9 ltac:(lia) eq_refl)|].
  destruct (Z.eqb_spec c 10) as [->|]; [exact (Hesc 110 10 ltac:(lia) eq_refl)|].
  destruct (Z.eqb_spec c 12) as [->|]; [exact (Hesc 102 12 ltac:(lia) eq_refl)|].
  destruct (Z.eqb_spec c 13) as [->|]; [exact (Hesc 114 13 ltac:(lia) eq_refl)|].
  destruct (Z.eqb_spec c 34) as [->|]; [exact (Hesc 34 34 ltac:(lia) eq_refl)|].
  destruct (Z.eqb_spec c 92) as [->|]; [exact (Hesc 92 92 ltac:(lia) eq_refl)|].
  destruct (Z.ltb_spec c 32); [exact Huni|].
  destruct (Crypto.is_high_surrogate c) eqn:Hhigh.
  - destruct r as [|d r']; [exact Huni|].
    destruct (Crypto.is_low_surrogate d) eqn:Hlow; [|exact Huni].
    unfold Crypto.is_low_surrogate in Hlow. apply andb_true_iff in Hlow as [Hd1 Hd2].
    apply Z.leb_le in Hd1, Hd2.
    inversion Hr as [|? ? Hd Hr']; subst.
    cbn [app]. rewrite (lex_plain_char c) by lia. rewrite (lex_plain_char d) by lia.
    rewrite (IH (length r')); [reflexivity|simpl; lia|reflexivity|exact Hr'].
  - destruct (Crypto.is_low_surrogate c); [exact Huni|].
    cbn [app]. rewrite (lex_plain_char c) by lia. rewrite IHr. reflexivity.
Qed.

Lemma drive_skip (st : JSON.state) (a : jsstring) (c : Z) (l : jsstring) :
  JSON.drive st (S (length a)) (a ++ c :: l) = JSON.drive st 0 l.
Proof. induction a as [|x a IH]; [reflexivity|exact IH]. Qed.

Lemma drive_step (st st' : JSON.state) (k : nat) (c : Z) (r : jsstring) :
  JSON.step st c r = Some (st', k) -> JSON.drive st 0 (c :: r) = JSON.drive st' k r.
Proof. intros H. cbn [JSON.drive]. rewrite H. reflexivity. Qed.

(** The body of an answer is JSON text: [JSON.parse] reads the object back. *)
Lemma parse_stringify (key text : jsstring) :
  Forall code_unit key -> Forall code_unit text ->
  JSON.parse (JSON.stringify [(key, Some text)]) = Some (VObject [(key, VString text)]).
Proof.
  intros Hk Ht. unfold JSON.parse, JSON.stringify.
  cbn [JSON.members JSON.join_commas]. unfold JSON.quote.
  rewrite <- !app_assoc. cbn [app].
  rewrite (drive_step _ ([JSON.InObject []], JSON.ExpectKeyOrClose) 0) by reflexivity.
  rewrite (drive_step _ ([JSON.AtKey key; JSON.InObject []], JSON.ExpectColon)
             (S (length (JSON.quote_chars key)))).
  2:{ unfold JSON.step. cbn [JSON.is_whitespace]. change (34 =? 125) with false.
      cbv iota. cbn. unfold JSON.start_key. change (34 =? 34) with true. cbv iota.
      rewrite (lex_quote_chars key _ Hk). reflexivity. }
  rewrite drive_skip.
  rewrite (drive_step _ ([JSON.AtKey key; JSON.InObject []], JSON.ExpectValue) 0)
    by reflexivity.
  rewrite (drive_step _ ([JSON.InObject [(key, VString text)]], JSON.ExpectCommaOrClose)
             (S (length (JSON.quote_chars text)))).
  2:{ unfold JSON.step. cbn [JSON.is_whitespace]. cbn. unfold JSON.start_value.
      change (34 =? 91) with false. change (34 =? 123) with false.
      change (34 =? 34) with true. cbv iota.
      rewrite (lex_quote_chars text _ Ht). reflexivity. }
  rewrite drive_skip.
  rewrite (drive_step _ ([], JSON.Finished (VObject [(key, VString text)])) 0)
    by reflexivity.
  reflexivity.
Qed.

Lemma parse_stringify_undefined (key : jsstring) :
  JSON.parse (JSON.stringify [(key, None)]) = Some (VObject []).
Proof. reflexivity. Qed.

(** ** What [JSON.parse] returns *)

Lemma deliver_defined (v : value) (stack : list JSON.frame) (st : JSON.state) :
  v <> VUndefined -> JSON.deliver v stack = Some st -> defined_mode (snd st).
Proof.
  intros Hv. unfold JSON.deliver.
  destruct stack as [|[elems|props|k] [|[elems'|props'|k'] s]]; intros [= <-]; cbn; auto.
Qed.

Lemma fmap_deliver_defined (v : value) (stack : list JSON.frame) (k : nat)
  (st : JSON.state) (n : nat) :
  v <> VUndefined ->
  (fun st => (st, k)) <$> JSON.deliver v stack = Some (st, n) -> defined_mode (snd st).
Proof.
  intros Hv H. destruct (JSON.deliver v stack) as [st0|] eqn:E; [|discriminate].
  cbn in H. injection H as <- _. exact (deliver_defined _ _ _ Hv E).
Qed.

Lemma step_defined (st st' : JSON.state) (c : Z) (r : jsstring) (k : nat) :
  defined_mode (snd st) -> JSON.step st c r = Some (st', k) -> defined_mode (snd st').
Proof.
  destruct st as [stack m]. intros Hm. unfold JSON.step.
  destruct (JSON.is_whitespace c); [intros [= <- _]; exact Hm|].
  assert (Hstart : JSON.start_value stack c r = Some (st', k) -> defined_mode (snd st')).
  { unfold JSON.start_value.
    repeat match goal with
           | |- context [if ?b then _ else _] => destruct b
           | |- context [match JSON.lex_string ?l with _ => _ end] =>
               destruct (JSON.lex_string l) as [[? ?]|]
           | |- context [match JSON.lex_number ?l with _ => _ end] =>
               destruct (JSON.lex_number l) as [[? ?]|]
           end;
      try discriminate;
      try (intros [= <- _]; exact I);
      apply fmap_deliver_defined; discriminate. }
  assert (Hkey : JSON.start_key stack c r = Some (st', k) -> defined_mode (snd st')).
  { unfold JSON.start_key. destruct (c =? 34); [|discriminate].
    destruct (JSON.lex_string r) as [[? ?]|]; [|discriminate].
    intros [= <- _]. exact I. }
  assert (Hclose : JSON.close stack c = Some (st', k) -> defined_mode (snd st')).
  { unfold JSON.close. destruct stack as [|[elems|props|key] s]; try discriminate.
    - destruct (c =? 93); [|discriminate]. apply fmap_deliver_defined. discriminate.
    - destruct (c =? 125); [|discriminate]. apply fmap_deliver_defined. discriminate. }
  destruct m; try assumption.
  - destruct (c =? 93); assumption.
  - destruct (c =? 125); assumption.
  - destruct (c =? 58); [intros [= <- _]; exact I|discriminate].
  - destruct (c =? 44); [|assumption].
    destruct stack as [|[| |] ?]; try discriminate; intros [= <- _]; exact I.
  - discriminate.
Qed.

Lemma drive_defined (l : jsstring) (st : JSON.state) (skip : nat) (v : value) :
  defined_mode (snd st) -> JSON.drive st skip l = Some v -> v <> VUndefined.
Proof.
  revert st skip. induction l as [|c r IH]; intros st skip Hm H.
  - cbn in H. destruct skip; [|discriminate].
    destruct st as [[|? ?] []]; try discriminate. injection H as <-. exact Hm.
  - cbn [JSON.drive] in H. destruct skip as [|k]; [|exact (IH _ _ Hm H)].
    destruct (JSON.step st c r) as [[st' k]|] eqn:E; [|discriminate].
    exact (IH _ _ (step_defined _ _ _ _ _ Hm E) H).
Qed.

(** A parsed value other than [null] can be destructured. *)
Lemma destructure_parsed (text : jsstring) (v : value) :
  JSON.parse text = Some v -> v <> VNull -> exists field, destructure v = Some field.
Proof.
  intros Hp Hnull.
  pose proof (drive_defined text ([], JSON.ExpectValue) 0%nat v I Hp) as Hdef.
  destruct v; try contradiction; eexists; reflexivity.
Qed.

(** ** The secret hash *)

Lemma digest_bytes_length (h : Crypto.regs) : length (Crypto.digest_bytes h) = 32%nat.
Proof. destruct h. reflexivity. Qed.

Lemma sha256_length (msg : list Z) : length (Crypto.sha256 msg) = 32%nat.
Proof. unfold Crypto.sha256. apply digest_bytes_length. Qed.

Lemma hmac_sha256_length (key msg : list Z) : length (Crypto.hmac_sha256 key msg) = 32%nat.
Proof. unfold Crypto.hmac_sha256. apply sha256_length. Qed.

Lemma base64_char_in (n : Z) : In (Crypto.base64_char n) Crypto.base64_alphabet.
Proof.
  unfold Crypto.base64_char. apply nth_In.
  change (length Crypto.base64_alphabet) with 64%nat.
  pose proof (Z.mod_pos_bound n 64 ltac:(lia)). lia.
Qed.

(** Thirty-two bytes encode to 43 characters of the alphabet and one [=]. *)
Lemma base64_of_32_bytes (bytes : list Z) :
  length bytes = 32%nat ->
  exists chars,
    Crypto.base64 bytes = chars ++ [61]
    /\ length chars = 43%nat
    /\ Forall (fun c => In c Crypto.base64_alphabet) chars.
Proof.
  intros Hlen.
  do 32 (destruct bytes as [|? bytes]; [discriminate Hlen|]).
  destruct bytes; [|discriminate Hlen].
  match goal with
  | |- exists chars, Crypto.base64 ?l = _ /\ _ => exists (take 43 (Crypto.base64 l))
  end.
  split; [reflexivity|]. split; [reflexivity|].
  cbn [Crypto.base64 take].
  repeat (constructor; [apply base64_char_in|]). constructor.
Qed.

Example K256_ends :
  length Crypto.K256 = 64%nat
  /\ nth 0 Crypto.K256 0 = 0x428a2f98 /\ nth 63 Crypto.K256 0 = 0xc67178f2
  /\ Crypto.ra Crypto.H0 = 0x6a09e667 /\ Crypto.rh Crypto.H0 = 0x5be0cd19.
Proof. vm_compute. repeat split. Qed.

(** FIPS 180-4 and RFC 4231 test vectors for the model of [crypto]. *)
Example sha256_abc :
  Crypto.sha256 (js "abc")
  = [ 0xba; 0x78; 0x16; 0xbf; 0x8f; 0x01; 0xcf; 0xea; 0x41; 0x41; 0x40; 0xde; 0x5d; 0xae;
      0x22; 0x23; 0xb0; 0x03; 0x61; 0xa3; 0x96; 0x17; 0x7a; 0x9c; 0xb4; 0x10; 0xff; 0x61;
      0xf2; 0x00; 0x15; 0xad ].
Proof. vm_compute. reflexivity. Qed.

Example hmac_sha256_rfc4231_case2 :
  Crypto.hmac_sha256 (js "Jefe") (js "what do ya want for nothing?")
  = [ 0x5b; 0xdc; 0xc1; 0x46; 0xbf; 0x60; 0x75; 0x4e; 0x6a; 0x04; 0x24; 0x26; 0x08; 0x95;
      0x75; 0xc7; 0x5a; 0x00; 0x3f; 0x08; 0x9d; 0x27; 0x39; 0x83; 0x9d; 0xec; 0x58; 0xb9;
      0x64; 0xec; 0x38; 0x43 ].
Proof. vm_compute. reflexivity. Qed.

Example base64_rfc4648 :
  Crypto.base64 (js "foobar") = js "Zm9vYmFy"
  /\ Crypto.base64 (js "fooba") = js "Zm9vYmE="
  /\ Crypto.base64 (js "foob") = js "Zm9vYg==".
Proof. vm_compute. repeat split. Qed.

(** The username and client id of the manual tests in the source, with no
    client secret configured. *)
Example calculateSecretHash_empty_secret :
  Index.calculateSecretHash unread_format (js "on53vovimk36lfnh0oc1rt78") []
    (VString (js "00011122233"))
  = Some (js "GQ+cRVwnSApPSMI4jmN1tfPHFBD099+6gsYyzIBWfjE=").
Proof. vm_compute. reflexivity. Qed.

(** C3. For every username, client id and client secret, in both revisions,
    [calculateSecretHash] returns (it has no failing case on a string, the
    empty secret included) the base64 text of the HMAC-SHA-256, keyed with
    the UTF-8 bytes of the secret, of the UTF-8 bytes of the username
    followed by the client id; the same inputs give the same text, being
    arguments of a function.  The text is standard padded base64 of 32
    bytes: 43 characters of the alphabet and one [=]. *)
Theorem calculateSecretHash_hmac_base64
  (Number_toString : number -> jsstring)
  (cognitoClientId cognitoClientSecret username : jsstring) (rev : revision) :
  let digest :=
    Crypto.hmac_sha256 (Crypto.utf8 cognitoClientSecret)
                       (Crypto.utf8 (username ++ cognitoClientId)) in
  calculateSecretHash_of Number_toString cognitoClientId cognitoClientSecret rev
    (VString username) = Some (Crypto.base64 digest)
  /\ length digest = 32%nat
  /\ exists chars,
       Crypto.base64 digest = chars ++ [61]
       /\ length chars = 43%nat
       /\ Forall (fun c => In c Crypto.base64_alphabet) chars.
Proof.
  intros digest. split; [destruct rev; reflexivity|].
  split; [apply hmac_sha256_length|].
  apply base64_of_32_bytes, hmac_sha256_length.
Qed.

(** ** authorize *)

Lemma authorize_of_missing (rev : revision) (event : APIGatewayProxyEvent.t) :
  authorization event = None ->
  authorize_of rev event
  = Return (message_response 401 (js "Missing Authorization header")).
Proof.
  unfold authorization. intros H.
  destruct rev; unfold authorize_of, Index.authorize, Refactored.authorize; cbv zeta;
    destruct (APIGatewayProxyEvent.headers event ≫= _) as [h|]; cbn [falsy];
      try reflexivity;
    destruct (jsstring_eqb h []); try discriminate; reflexivity.
Qed.

(** With a truthy header the handler makes its one call and answers from
    the way it settles. *)
Lemma authorize_of_present (rev : revision) (cognito : Cognito)
  (event : APIGatewayProxyEvent.t) (header : jsstring) :
  authorization event = Some header ->
  let call := getUser (GetUserRequest.mk (String_replace header (js "Bearer ") [])) in
  run cognito (authorize_of rev event)
  = ([called call],
     Returned
       match cognito unit call with
       | Fulfilled _ => message_response 200 (js "Authorized")
       | Rejected error =>
           match rev with
           | SrcIndex =>
               APIGatewayProxyResult.mk 401 (JSON.stringify [(js "message", message error)])
           | WithRespond => message_response 401 (or_else (message error) (js "Unauthorized"))
           end
       end).
Proof.
  intros H. cbv zeta. unfold authorization in H.
  destruct rev; unfold authorize_of, Index.authorize, Refactored.authorize;
    destruct (APIGatewayProxyEvent.headers event ≫= _) as [h|]; try discriminate;
    cbn [falsy default from_option id];
    destruct (jsstring_eqb h []); try discriminate;
    injection H as ->; cbn [mbind Promise_bind bind await run];
    destruct (cognito unit _); reflexivity.
Qed.

Lemma authorization_None (event : APIGatewayProxyEvent.t) :
  APIGatewayProxyEvent.headers event ≫= (.!! js "Authorization") = None ->
  authorization event = None.
Proof. unfold authorization. intros ->. reflexivity. Qed.

Lemma authorization_Some (event : APIGatewayProxyEvent.t) (header : jsstring) :
  APIGatewayProxyEvent.headers event ≫= (.!! js "Authorization") = Some header ->
  header <> [] ->
  authorization event = Some header.
Proof.
  unfold authorization. intros -> Hne.
  apply jsstring_eqb_neq in Hne. rewrite Hne. reflexivity.
Qed.

(** C5. An authorize request whose headers are missing or hold no
    [Authorization] entry is answered, in both revisions, with status 401
    and the body [{"message":"Missing Authorization header"}], and the
    provider is not called. *)
Theorem authorize_without_header
  (rev : revision) (cognito : Cognito) (event : APIGatewayProxyEvent.t) :
  APIGatewayProxyEvent.headers event ≫= (.!! js "Authorization") = None ->
  run cognito (authorize_of rev event)
  = ([], Returned (APIGatewayProxyResult.mk 401
                     (object_text (js "message") (js "Missing Authorization header")))).
Proof.
  intros H. rewrite (authorize_of_missing rev event (authorization_None _ H)).
  reflexivity.
Qed.

Lemma authorize_without_header_witness :
  run (accepting None)
      (authorize_of SrcIndex
(request_with_header "Host" "example.org"))
  = ([], Returned (APIGatewayProxyResult.mk 401
                     (object_text (js "message") (js "Missing Authorization header")))).
Proof. apply (authorize_without_header SrcIndex). vm_compute. reflexivity. Defined.

(** C9, as the code has it. With an [Authorization] header whose value is
    not empty, the one call made is [getUser] with the header value in which
    the first occurrence of ["Bearer "] is removed: where the value is
    [pre ++ "Bearer " ++ post] and no occurrence starts before [pre] ends,
    the token is [pre ++ post]; a value in which ["Bearer "] does not occur
    is the token as it is. *)
Theorem authorize_forwards_token
  (rev : revision) (cognito : Cognito) (event : APIGatewayProxyEvent.t) (header : jsstring) :
  APIGatewayProxyEvent.headers event ≫= (.!! js "Authorization") = Some header ->
  header <> [] ->
  exists token,
    calls_of cognito (authorize_of rev event) = [called (getUser (GetUserRequest.mk token))]
    /\ (forall pre post,
          header = pre ++ js "Bearer " ++ post ->
          (forall pre' post', header = pre' ++ js "Bearer " ++ post' ->
                              (length pre <= length pre')%nat) ->
          token = pre ++ post)
    /\ ((forall pre post, header <> pre ++ js "Bearer " ++ post) -> token = header).
Proof.
  intros H Hne. exists (String_replace header (js "Bearer ") []).
  split; [|split].
  - unfold calls_of.
    rewrite (authorize_of_present rev cognito event header (authorization_Some _ _ H Hne)).
    reflexivity.
  - intros pre post -> Hfirst. exact (String_replace_first _ [] pre post Hfirst).
  - intros Habs. exact (String_replace_absent _ _ _ Habs).
Qed.

Lemma authorize_forwards_token_witness :
  calls_of (accepting None)
    (authorize_of WithRespond
(request_with_header "Authorization" "Bearer abc.def"))
  = [called (getUser (GetUserRequest.mk (js "abc.def")))].
Proof.
  destruct (authorize_forwards_token WithRespond (accepting None)
              (request_with_header "Authorization" "Bearer abc.def")
              (js "Bearer abc.def"))
    as (token & Hcalls & Hfirst & _).
  - vm_compute. reflexivity.
  - discriminate.
  - rewrite Hcalls. rewrite (Hfirst [] (js "abc.def")).
    + reflexivity.
    + reflexivity.
    + intros. simpl. lia.
Defined.

(** C9 fails on a header that is present with the empty string as its
    value: it holds no ["Bearer "], yet it is not forwarded; both revisions
    answer it themselves, 401, and make no call. *)
Lemma empty_header_counterexample :
  APIGatewayProxyEvent.headers (request_with_header "Authorization" "")
    ≫= (.!! js "Authorization") = Some ([] : jsstring)
  /\ run (accepting None) (Index.authorize (request_with_header "Authorization" ""))
     = ([], Returned (APIGatewayProxyResult.mk 401
                        (object_text (js "message") (js "Missing Authorization header"))))
  /\ run (accepting None) (Refactored.authorize (request_with_header "Authorization" ""))
     = ([], Returned (APIGatewayProxyResult.mk 401
                        (object_text (js "message") (js "Missing Authorization header")))).
Proof. vm_compute. repeat split. Qed.

(** A bare token goes to the provider as it is. *)
Example authorize_bare_token :
  calls_of (accepting None)
    (authorize_of SrcIndex
(request_with_header "Authorization" "abc.def"))
  = [called (getUser (GetUserRequest.mk (js "abc.def")))].
Proof. vm_compute. reflexivity. Qed.

(** Only the first ["Bearer "] goes, wherever it stands. *)
Example authorize_first_occurrence :
  String_replace (js "x Bearer Bearer y") (js "Bearer ") [] = js "x Bearer y".
Proof. vm_compute. reflexivity. Qed.

(** C4, as the code has it. With a truthy [Authorization] header: when the
    provider accepts the token both revisions answer 200 with message
    [Authorized]; when it rejects the call with a non-empty reason both
    answer 401 with that reason as the message; when it rejects it without
    a reason (a missing or empty message) the [respond] revision answers
    401 with message [Unauthorized], while src/index.ts copies what it got:
    the body is the object without a message, or with the empty one. *)
Theorem authorize_outcomes
  (cognito : Cognito) (event : APIGatewayProxyEvent.t) (header : jsstring) :
  APIGatewayProxyEvent.headers event ≫= (.!! js "Authorization") = Some header ->
  header <> [] ->
  let call := getUser (GetUserRequest.mk (String_replace header (js "Bearer ") [])) in
  (forall rev response,
      cognito unit call = Fulfilled response ->
      outcome cognito (authorize_of rev event)
      = Returned (APIGatewayProxyResult.mk 200 (object_text (js "message") (js "Authorized"))))
  /\ (forall rev reason,
        cognito unit call = Rejected (mkError (Some reason)) ->
        reason <> [] ->
        outcome cognito (authorize_of rev event)
        = Returned (APIGatewayProxyResult.mk 401
                      (JSON.stringify [(js "message", Some reason)])))
  /\ (forall reason,
        cognito unit call = Rejected (mkError reason) ->
        falsy reason = true ->
        outcome cognito (authorize_of WithRespond event)
        = Returned (APIGatewayProxyResult.mk 401
                      (object_text (js "message") (js "Unauthorized")))
        /\ outcome cognito (authorize_of SrcIndex event)
           = Returned (APIGatewayProxyResult.mk 401
                         (JSON.stringify [(js "message", reason)]))).
Proof.
  intros H Hne call.
  pose proof (authorization_Some _ _ H Hne) as Hauth.
  unfold outcome. split; [|split].
  - intros rev response Hc.
    rewrite (authorize_of_present rev cognito event header Hauth). cbn [snd].
    fold call. rewrite Hc. reflexivity.
  - intros rev reason Hc Hr.
    rewrite (authorize_of_present rev cognito event header Hauth). cbn [snd].
    fold call. rewrite Hc. apply jsstring_eqb_neq in Hr.
    destruct rev; cbn [message or_else]; [|rewrite Hr]; reflexivity.
  - intros reason Hc Hr.
    rewrite !(authorize_of_present _ cognito event header Hauth). cbn [snd].
    fold call. rewrite Hc. cbn [message]. split; [|reflexivity].
    destruct reason as [r|]; cbn [or_else falsy] in *; [rewrite Hr|]; reflexivity.
Qed.

Lemma authorize_outcomes_witness :
  outcome (accepting None)
    (authorize_of SrcIndex
(request_with_header "Authorization" "Bearer abc.def"))
  = Returned (APIGatewayProxyResult.mk 200 (object_text (js "message") (js "Authorized"))).
Proof.
  refine (proj1 (authorize_outcomes (accepting None)
                   (request_with_header "Authorization" "Bearer abc.def")
                   (js "Bearer abc.def") _ _) SrcIndex tt _).
  - vm_compute. reflexivity.
  - discriminate.
  - reflexivity.
Defined.

(** C4 fails on src/index.ts: a rejection without a reason is answered
    with the body [{}], not with the message [Unauthorized]. *)
Lemma authorize_without_reason_counterexample :
  outcome (rejecting None)
    (Index.authorize (request_with_header "Authorization" "Bearer abc.def"))
  = Returned (APIGatewayProxyResult.mk 401 (js "{}"))
  /\ outcome (rejecting None)
       (Index.authorize (request_with_header "Authorization" "Bearer abc.def"))
     <> Returned (APIGatewayProxyResult.mk 401
                    (object_text (js "message") (js "Unauthorized"))).
Proof. vm_compute. split; [reflexivity|discriminate]. Qed.

(** ** The handlers that read a body *)

(** The code of the six handlers runs as the uniform description says. *)
Lemma run_handler_of (Number_toString : number -> jsstring)
  (cognitoClientId cognitoClientSecret : jsstring) (cognito : Cognito)
  (rev : revision) (h : body_handler) (event : APIGatewayProxyEvent.t) :
  run cognito (handler_of Number_toString cognitoClientId cognitoClientSecret rev h event)
  = uniform_run Number_toString cognitoClientId cognitoClientSecret cognito rev h event.
Proof.
  destruct event as [hd [b|]];
    destruct rev, h;
    unfold handler_of, uniform_run, body_text,
      Index.authenticate, Index.register, Index.confirm,
      Refactored.authenticate, Refactored.register, Refactored.confirm;
    cbn [APIGatewayProxyEvent.body falsy]; try reflexivity;
    (destruct (jsstring_eqb b []); [reflexivity|]);
    cbn [default from_option id];
    (destruct (JSON.parse b) as [v|]; [|reflexivity]);
    cbn [or_throw mbind Promise_bind bind];
    (destruct (destructure v) as [field|]; [|reflexivity]);
    cbn [or_throw mbind Promise_bind bind];
    unfold some_field_falsy, required_fields; cbn [existsb];
    repeat match goal with
           | |- context [ToBoolean (field ?k)] => destruct (ToBoolean (field k))
           end;
    cbn [negb orb]; try reflexivity;
    unfold calculateSecretHash_of;
    match goal with
    | |- context [Index.calculateSecretHash ?a ?b ?c ?d] =>
        destruct (Index.calculateSecretHash a b c d)
    | |- context [Refactored.calculateSecretHash ?a ?b ?c ?d] =>
        destruct (Refactored.calculateSecretHash a b c d)
    end;
    try reflexivity;
    cbn [or_throw mbind Promise_bind bind await run provider_call consult];
    unfold initiateAuth_params, signUp_params, confirmSignUp_params;
    match goal with
    | |- context [cognito ?R ?c] => destruct (cognito R c)
    end;
    cbn [reply];
    try match goal with
        | |- context [falsy ?t] => destruct (falsy t)
        end;
    reflexivity.
Qed.

Lemma body_text_falsy (event : APIGatewayProxyEvent.t) :
  falsy (APIGatewayProxyEvent.body event) = true -> body_text event = None.
Proof.
  unfold body_text, falsy. destruct (APIGatewayProxyEvent.body event) as [b|]; [|reflexivity].
  intros ->. reflexivity.
Qed.

Lemma body_text_truthy (event : APIGatewayProxyEvent.t) (b : jsstring) :
  APIGatewayProxyEvent.body event = Some b -> b <> [] -> body_text event = Some b.
Proof.
  unfold body_text. intros -> Hne. apply jsstring_eqb_neq in Hne. rewrite Hne. reflexivity.
Qed.

Lemma parse_nonempty (b : jsstring) (v : value) : JSON.parse b = Some v -> b <> [].
Proof. intros H ->. discriminate H. Qed.

Lemma body_text_parsed (event : APIGatewayProxyEvent.t) (b : jsstring) (v : value) :
  APIGatewayProxyEvent.body event = Some b -> JSON.parse b = Some v ->
  body_text event = Some b.
Proof. intros Hb Hp. exact (body_text_truthy _ _ Hb (parse_nonempty _ _ Hp)). Qed.

Lemma some_field_falsy_iff (h : body_handler) (field : jsstring -> value) :
  some_field_falsy h field = true
  <-> exists k, In k (required_fields h) /\ ToBoolean (field k) = false.
Proof.
  unfold some_field_falsy. rewrite existsb_exists.
  split; intros (k & Hin & Hk); exists k; (split; [exact Hin|]).
  - apply negb_true_iff. exact Hk.
  - apply negb_true_iff. exact Hk.
Qed.

Lemma missing_fields_text (rev : revision) (h : body_handler) :
  JSON.stringify [(js "message", Some (missing_fields_message rev h))]
  = object_text (js "message") (missing_fields_message rev h).
Proof. destruct rev, h; reflexivity. Qed.

(** What is falsy among the values [JSON.parse] and a property lookup give. *)
Lemma ToBoolean_false (v : value) :
  ToBoolean v = false
  <-> v = VUndefined \/ v = VNull \/ v = VString [] \/ v = VBoolean false
      \/ exists n, v = VNumber n /\ number_is_zero n = true.
Proof.
  split.
  - destruct v as [| |b|n|s| |]; cbn [ToBoolean]; intros H; try discriminate; auto.
    + subst b. auto.
    + apply negb_false_iff in H. right. right. right. right. exists n. auto.
    + apply negb_false_iff, jsstring_eqb_eq in H. subst s. auto.
  - intros [->|[->|[->|[->|(n & -> & Hn)]]]]; cbn [ToBoolean]; try reflexivity.
    rewrite Hn. reflexivity.
Qed.

(** Validation stops the handler before any provider call. *)
Lemma validation_stops
  (Number_toString : number -> jsstring) (cognitoClientId cognitoClientSecret : jsstring)
  (cognito : Cognito) (rev : revision) (h : body_handler) (event : APIGatewayProxyEvent.t)
  (b : jsstring) (v : value) (field : jsstring -> value) :
  APIGatewayProxyEvent.body event = Some b ->
  JSON.parse b = Some v ->
  destructure v = Some field ->
  (exists k, In k (required_fields h) /\ ToBoolean (field k) = false) ->
  run cognito (handler_of Number_toString cognitoClientId cognitoClientSecret rev h event)
  = ([], Returned (APIGatewayProxyResult.mk 400
                     (object_text (js "message") (missing_fields_message rev h)))).
Proof.
  intros Hb Hp Hd Hk. rewrite run_handler_of. unfold uniform_run.
  rewrite (body_text_parsed _ _ _ Hb Hp), Hp, Hd.
  apply some_field_falsy_iff in Hk. rewrite Hk.
  unfold message_response. rewrite missing_fields_text. reflexivity.
Qed.

(** C6, as the code has it. For authenticate, register and confirm in both
    revisions: an absent (or empty) body is answered 400 with message
    [Missing body]; a body that parses to a value other than null, one
    that can be destructured, in which a required field is absent or falsy
    is answered 400 with the handler's message naming the fields; in both
    cases the provider is not called. *)
Theorem body_validation
  (Number_toString : number -> jsstring) (cognitoClientId cognitoClientSecret : jsstring)
  (cognito : Cognito) (rev : revision) (h : body_handler) (event : APIGatewayProxyEvent.t) :
  (falsy (APIGatewayProxyEvent.body event) = true ->
   run cognito (handler_of Number_toString cognitoClientId cognitoClientSecret rev h event)
   = ([], Returned (APIGatewayProxyResult.mk 400
                      (object_text (js "message") (js "Missing body")))))
  /\ (forall b v field,
        APIGatewayProxyEvent.body event = Some b ->
        JSON.parse b = Some v ->
        destructure v = Some field ->
        (exists k, In k (required_fields h) /\ ToBoolean (field k) = false) ->
        run cognito (handler_of Number_toString cognitoClientId cognitoClientSecret rev h event)
        = ([], Returned (APIGatewayProxyResult.mk 400
                           (object_text (js "message") (missing_fields_message rev h))))).
Proof.
  split.
  - intros Hb. rewrite run_handler_of. unfold uniform_run.
    rewrite (body_text_falsy _ Hb). reflexivity.
  - intros b v field Hb Hp Hd Hk.
    exact (validation_stops Number_toString cognitoClientId cognitoClientSecret cognito
             rev h event b v field Hb Hp Hd Hk).
Qed.

(** authenticate with the body [{}]. *)
Lemma body_validation_witness :
  run (rejecting None)
    (handler_of unread_format (js "client") (js "secret") WithRespond Authenticate
       (request "{}"))
  = ([], Returned (APIGatewayProxyResult.mk 400
                     (object_text (js "message") (js "Missing username or password")))).
Proof.
  refine (proj2 (body_validation unread_format (js "client") (js "secret") (rejecting None)
                   WithRespond Authenticate (request "{}"))
            (quoted "{}") (VObject []) (fun _ => VUndefined) _ _ _ _).
  - reflexivity.
  - vm_compute. reflexivity.
  - reflexivity.
  - exists (js "username"). split; [left; reflexivity|reflexivity].
Defined.

(** C6 fails where the body is the JSON text [null]: it parses, no field
    is there, and the handler ends in a TypeError instead of a response. *)
Lemma null_body_counterexample :
  JSON.parse (quoted "null") = Some VNull
  /\ run (accepting None)
       (Index.authenticate unread_format (js "client") (js "secret") (request "null"))
     = ([], Uncaught TypeError)
  /\ run (accepting None)
       (Refactored.authenticate unread_format (js "client") (js "secret") (request "null"))
     = ([], Uncaught TypeError).
Proof. vm_compute. repeat split. Qed.

Lemma calculateSecretHash_of_ToString (Number_toString : number -> jsstring)
  (cognitoClientId cognitoClientSecret : jsstring) (rev : revision) (v : value) :
  calculateSecretHash_of Number_toString cognitoClientId cognitoClientSecret rev v
  = (fun u => Crypto.createHmac_sha256_base64 cognitoClientSecret (u ++ cognitoClientId))
      <$> ToString Number_toString v.
Proof.
  destruct rev;
    unfold calculateSecretHash_of, Index.calculateSecretHash, Refactored.calculateSecretHash,
      plus;
    destruct (ToString Number_toString v); reflexivity.
Qed.

Lemma all_fields_truthy (h : body_handler) (field : jsstring -> value) :
  (forall k, In k (required_fields h) -> ToBoolean (field k) = true) ->
  some_field_falsy h field = false.
Proof.
  intros Hall. destruct (some_field_falsy h field) eqn:E; [|reflexivity].
  apply some_field_falsy_iff in E as (k & Hin & Hk).
  rewrite (Hall k Hin) in Hk. discriminate.
Qed.

(** C10, as the code has it. For a body that parses to a value other than
    null: the handler stops at validation, answering the 400 that names
    the fields without a provider call, exactly when a required field is
    falsy, that is undefined (absent), null, the empty string, false, or a
    number that is zero; when all are truthy no type is checked, and the
    parsed values go to the provider as they are whenever the username has
    a string conversion for the secret hash. *)
Theorem validation_by_truthiness
  (Number_toString : number -> jsstring) (cognitoClientId cognitoClientSecret : jsstring)
  (cognito : Cognito) (rev : revision) (h : body_handler) (event : APIGatewayProxyEvent.t)
  (b : jsstring) (v : value) (field : jsstring -> value) :
  APIGatewayProxyEvent.body event = Some b ->
  JSON.parse b = Some v ->
  destructure v = Some field ->
  (run cognito (handler_of Number_toString cognitoClientId cognitoClientSecret rev h event)
   = ([], Returned (APIGatewayProxyResult.mk 400
                      (object_text (js "message") (missing_fields_message rev h))))
   <-> exists k, In k (required_fields h) /\ ToBoolean (field k) = false)
  /\ (forall x,
        ToBoolean x = false
        <-> x = VUndefined \/ x = VNull \/ x = VString [] \/ x = VBoolean false
            \/ exists n, x = VNumber n /\ number_is_zero n = true)
  /\ ((forall k, In k (required_fields h) -> ToBoolean (field k) = true) ->
      forall u,
        ToString Number_toString (field (js "username")) = Some u ->
        calls_of cognito
          (handler_of Number_toString cognitoClientId cognitoClientSecret rev h event)
        = [provider_call cognitoClientId h field
             (Crypto.createHmac_sha256_base64 cognitoClientSecret (u ++ cognitoClientId))]).
Proof.
  intros Hb Hp Hd. split; [|split].
  - split.
    + rewrite run_handler_of. unfold uniform_run.
      rewrite (body_text_parsed _ _ _ Hb Hp), Hp, Hd.
      destruct (some_field_falsy h field) eqn:E.
      * intros _. apply some_field_falsy_iff. exact E.
      * destruct (calculateSecretHash_of _ _ _ _ _); discriminate.
    + intros Hk.
      exact (validation_stops Number_toString cognitoClientId cognitoClientSecret cognito
               rev h event b v field Hb Hp Hd Hk).
  - exact ToBoolean_false.
  - intros Hall u Hu. unfold calls_of. rewrite run_handler_of. unfold uniform_run.
    rewrite (body_text_parsed _ _ _ Hb Hp), Hp, Hd, (all_fields_truthy _ _ Hall).
    rewrite calculateSecretHash_of_ToString, Hu. reflexivity.
Qed.

(** confirm with a numeric-looking code sent as the boolean [true] and the
    username as an array: both truthy, both forwarded. *)
Lemma validation_by_truthiness_witness :
  calls_of (accepting None)
    (handler_of unread_format (js "client") (js "secret") SrcIndex Confirm
       (request "{'username':['u'],'code':true}"))
  = [called (confirmSignUp
               (ConfirmSignUpRequest.mk (js "client") (VBoolean true)
                  (VArray [VString (js "u")])
                  (Crypto.createHmac_sha256_base64 (js "secret") (js "uclient"))))].
Proof.
  refine (proj2 (proj2 (validation_by_truthiness unread_format (js "client") (js "secret")
                          (accepting None) SrcIndex Confirm
                          (request "{'username':['u'],'code':true}")
                          (quoted "{'username':['u'],'code':true}")
                          (VObject [(js "username", VArray [VString (js "u")]);
                                    (js "code", VBoolean true)])
                          (fun k => default VUndefined
                                      (own_property k
                                         [(js "username", VArray [VString (js "u")]);
                                          (js "code", VBoolean true)]))
                          _ _ _)) _ (js "u") _).
  - reflexivity.
  - vm_compute. reflexivity.
  - reflexivity.
  - intros k [<-|[<-|[]]]; reflexivity.
  - reflexivity.
Defined.

(** C10 fails where a truthy username has no string conversion: the object
    with an own [toString] key passes validation, but the secret hash
    throws before anything is sent to the provider. *)
Lemma truthy_not_forwarded_counterexample :
  JSON.parse (quoted "{'username':{'toString':1},'password':'p'}")
  = Some (VObject [(js "username", VObject [(js "toString", VNumber (Number false 1 0))]);
                   (js "password", VString (js "p"))])
  /\ ToBoolean (VObject [(js "toString", VNumber (Number false 1 0))]) = true
  /\ ToBoolean (VString (js "p")) = true
  /\ run (accepting (Some (js "token")))
       (Index.authenticate unread_format (js "client") (js "secret")
          (request "{'username':{'toString':1},'password':'p'}"))
     = ([], Uncaught TypeError)
  /\ run (accepting (Some (js "token")))
       (Refactored.authenticate unread_format (js "client") (js "secret")
          (request "{'username':{'toString':1},'password':'p'}"))
     = ([], Uncaught TypeError).
Proof. vm_compute. repeat split. Qed.

(** A settled provider call is always answered with a status and the JSON
    text of a one-key object. *)
Lemma reply_shape (rev : revision) (h : body_handler) (o : provider_outcome) :
  exists status key text,
    reply rev h o = APIGatewayProxyResult.mk status (JSON.stringify [(key, text)])
    /\ (status = 200 \/ status = 400).
Proof.
  destruct o as [token|reason]; destruct rev, h; cbn [reply];
    try destruct (falsy token);
    unfold message_response; do 3 eexists; (split; [reflexivity|]); auto.
Qed.

(** C1, as the code has it. authorize always ends in a response: a status
    code and the JSON text of an object.  authenticate, register and confirm
    do so when the body is absent or empty, and when it parses to a value
    other than null whose username has a string conversion.  A present
    body that is not JSON is not answered: [JSON.parse] throws outside any
    [try], and the invocation ends in the uncaught SyntaxError.  The body
    of an answer, [JSON.stringify] of an object with one key, is JSON text
    that [JSON.parse] reads back as an object. *)
Theorem handlers_respond
  (Number_toString : number -> jsstring) (cognitoClientId cognitoClientSecret : jsstring)
  (cognito : Cognito) (rev : revision) (event : APIGatewayProxyEvent.t) :
  (exists status key text,
      outcome cognito (authorize_of rev event)
      = Returned (APIGatewayProxyResult.mk status (JSON.stringify [(key, text)])))
  /\ (forall h,
        falsy (APIGatewayProxyEvent.body event) = true ->
        exists status key text,
          outcome cognito
            (handler_of Number_toString cognitoClientId cognitoClientSecret rev h event)
          = Returned (APIGatewayProxyResult.mk status (JSON.stringify [(key, text)])))
  /\ (forall h b v field u,
        APIGatewayProxyEvent.body event = Some b ->
        JSON.parse b = Some v ->
        destructure v = Some field ->
        ToString Number_toString (field (js "username")) = Some u ->
        exists status key text,
          outcome cognito
            (handler_of Number_toString cognitoClientId cognitoClientSecret rev h event)
          = Returned (APIGatewayProxyResult.mk status (JSON.stringify [(key, text)])))
  /\ (forall h b,
        APIGatewayProxyEvent.body event = Some b ->
        b <> [] ->
        JSON.parse b = None ->
        run cognito
          (handler_of Number_toString cognitoClientId cognitoClientSecret rev h event)
        = ([], Uncaught SyntaxError))
  /\ (forall key text,
        Forall code_unit key ->
        (forall t, text = Some t -> Forall code_unit t) ->
        exists props, JSON.parse (JSON.stringify [(key, text)]) = Some (VObject props)).
Proof.
  split; [|split; [|split; [|split]]].
  - unfold outcome. destruct (authorization event) as [header|] eqn:E.
    + rewrite (authorize_of_present rev cognito event header E). cbn [snd].
      destruct (cognito unit _); [|destruct rev]; unfold message_response;
        do 3 eexists; reflexivity.
    + rewrite (authorize_of_missing rev event E). unfold message_response.
      do 3 eexists. reflexivity.
  - intros h Hb. unfold outcome. rewrite run_handler_of. unfold uniform_run.
    rewrite (body_text_falsy _ Hb). unfold message_response. do 3 eexists. reflexivity.
  - intros h b v field u Hb Hp Hd Hu. unfold outcome. rewrite run_handler_of.
    unfold uniform_run. rewrite (body_text_parsed _ _ _ Hb Hp), Hp, Hd.
    destruct (some_field_falsy h field).
    + unfold message_response. do 3 eexists. reflexivity.
    + rewrite calculateSecretHash_of_ToString, Hu. cbn [fmap option_fmap option_map snd].
      destruct (reply_shape rev h
                  (consult cognitoClientId cognito h field
                     (Crypto.createHmac_sha256_base64 cognitoClientSecret
                        (u ++ cognitoClientId))))
        as (status & key & text & -> & _).
      do 3 eexists. reflexivity.
  - intros h b Hb Hne Hp. rewrite run_handler_of. unfold uniform_run.
    rewrite (body_text_truthy _ _ Hb Hne), Hp. reflexivity.
  - intros key [t|] Hk Ht.
    + eexists. exact (parse_stringify key t Hk (Ht t eq_refl)).
    + eexists. exact (parse_stringify_undefined key).
Qed.

(** register with a complete body, the provider refusing the sign-up. *)
Lemma handlers_respond_witness :
  exists status key text,
    outcome (rejecting (Some (js "User already exists")))
      (handler_of unread_format (js "client") (js "secret") SrcIndex Register
         (request "{'email':'a@b.com','username':'u1','password':'p1'}"))
    = Returned (APIGatewayProxyResult.mk status (JSON.stringify [(key, text)])).
Proof.
  refine (proj1 (proj2 (proj2
            (handlers_respond unread_format (js "client") (js "secret")
               (rejecting (Some (js "User already exists"))) SrcIndex
               (request "{'email':'a@b.com','username':'u1','password':'p1'}"))))
            Register
            (quoted "{'email':'a@b.com','username':'u1','password':'p1'}")
            (VObject [(js "email", VString (js "a@b.com"));
                      (js "username", VString (js "u1"));
                      (js "password", VString (js "p1"))])
            (fun k => default VUndefined
                        (own_property k
                           [(js "email", VString (js "a@b.com"));
                            (js "username", VString (js "u1"));
                            (js "password", VString (js "p1"))]))
            (js "u1") _ _ _ _).
  - reflexivity.
  - vm_compute. reflexivity.
  - reflexivity.
  - reflexivity.
Defined.

(** C1 fails on a body that is not JSON: authenticate, in both revisions,
    ends in an uncaught SyntaxError, not in a client-error response. *)
Lemma malformed_body_counterexample :
  JSON.parse (quoted "{'username':'u','password':") = None
  /\ run (accepting (Some (js "token")))
       (Index.authenticate unread_format (js "client") (js "secret")
          (request "{'username':'u','password':"))
     = ([], Uncaught SyntaxError)
  /\ run (accepting (Some (js "token")))
       (Refactored.authenticate unread_format (js "client") (js "secret")
          (request "{'username':'u','password':"))
     = ([], Uncaught SyntaxError).
Proof. vm_compute. repeat split. Qed.

(** C8. Whatever the request and the provider, the status code of a
    response is one of two: authorize, which always answers, gives 200 or
    401; authenticate, register and confirm give 200 or 400 whenever they
    answer. *)
Theorem status_codes
  (Number_toString : number -> jsstring) (cognitoClientId cognitoClientSecret : jsstring)
  (cognito : Cognito) (rev : revision) (event : APIGatewayProxyEvent.t) :
  (exists response,
      outcome cognito (authorize_of rev event) = Returned response
      /\ (APIGatewayProxyResult.statusCode response = 200
          \/ APIGatewayProxyResult.statusCode response = 401))
  /\ (forall h response,
        outcome cognito
          (handler_of Number_toString cognitoClientId cognitoClientSecret rev h event)
        = Returned response ->
        APIGatewayProxyResult.statusCode response = 200
        \/ APIGatewayProxyResult.statusCode response = 400).
Proof.
  split.
  - unfold outcome. destruct (authorization event) as [header|] eqn:E.
    + rewrite (authorize_of_present rev cognito event header E). cbn [snd].
      eexists. split; [reflexivity|].
      destruct (cognito unit _); [|destruct rev]; cbn; auto.
    + rewrite (authorize_of_missing rev event E). eexists. split; [reflexivity|].
      cbn. auto.
  - intros h response. unfold outcome. rewrite run_handler_of. unfold uniform_run.
    destruct (body_text event) as [b|]; [|intros [= <-]; cbn; auto].
    destruct (JSON.parse b) as [v|]; [|discriminate].
    destruct (destructure v) as [field|]; [|discriminate].
    destruct (some_field_falsy h field); [intros [= <-]; cbn; auto|].
    destruct (calculateSecretHash_of _ _ _ _ _) as [secretHash|]; [|discriminate].
    cbn [snd]. intros [= <-].
    destruct (reply_shape rev h (consult cognitoClientId cognito h field secretHash))
      as (status & key & text & -> & Hs).
    exact Hs.
Qed.

Lemma status_codes_witness :
  APIGatewayProxyResult.statusCode
    (APIGatewayProxyResult.mk 200 (object_text (js "message") (js "User confirmed"))) = 200
  \/ APIGatewayProxyResult.statusCode
       (APIGatewayProxyResult.mk 200 (object_text (js "message") (js "User confirmed"))) = 400.
Proof.
  refine (proj2 (status_codes unread_format (js "client") (js "secret") (accepting None)
                   WithRespond (request "{'username':'u1','code':'864798'}"))
            Confirm _ _).
  vm_compute. reflexivity.
Defined.

Lemma destructure_object (props : list (jsstring * value)) :
  destructure (VObject props) = Some (fun k => default VUndefined (own_property k props)).
Proof. reflexivity. Qed.

Lemma nonempty_truthy (s : jsstring) : s <> [] -> ToBoolean (VString s) = true.
Proof. intros H. cbn [ToBoolean]. apply jsstring_eqb_neq in H. rewrite H. reflexivity. Qed.

(** C2, as the code has it. For an authenticate request whose body parses
    to an object with non-empty strings for username and password, when
    [initiateAuth] succeeds: without an access token in the payload (or
    with an empty one) both revisions answer 400 with message [Invalid
    username or password]; with an access token both answer 200, src/index.ts
    with the token under the key [accessToken], the [respond] revision with
    the token under the key [message] like every other answer. *)
Theorem authenticate_success
  (Number_toString : number -> jsstring) (cognitoClientId cognitoClientSecret : jsstring)
  (cognito : Cognito) (event : APIGatewayProxyEvent.t)
  (b : jsstring) (props : list (jsstring * value)) (username password : jsstring)
  (response : InitiateAuthResponse.t) :
  APIGatewayProxyEvent.body event = Some b ->
  JSON.parse b = Some (VObject props) ->
  own_property (js "username") props = Some (VString username) -> username <> [] ->
  own_property (js "password") props = Some (VString password) -> password <> [] ->
  cognito InitiateAuthResponse.t
    (initiateAuth
       (InitiateAuthRequest.mk (js "USER_PASSWORD_AUTH") cognitoClientId
          (InitiateAuthRequest.mkAuthParameters (VString username) (VString password)
             (Crypto.createHmac_sha256_base64 cognitoClientSecret
                (username ++ cognitoClientId)))))
  = Fulfilled response ->
  let token :=
    InitiateAuthResponse.AuthenticationResult response ≫= InitiateAuthResponse.AccessToken in
  (falsy token = true ->
   forall rev,
     outcome cognito
       (handler_of Number_toString cognitoClientId cognitoClientSecret rev Authenticate event)
     = Returned (APIGatewayProxyResult.mk 400
                   (object_text (js "message") (js "Invalid username or password"))))
  /\ (forall t,
        token = Some t -> t <> [] ->
        outcome cognito
          (Index.authenticate Number_toString cognitoClientId cognitoClientSecret event)
        = Returned (APIGatewayProxyResult.mk 200 (JSON.stringify [(js "accessToken", Some t)]))
        /\ outcome cognito
             (Refactored.authenticate Number_toString cognitoClientId cognitoClientSecret event)
           = Returned (APIGatewayProxyResult.mk 200 (JSON.stringify [(js "message", Some t)]))).
Proof.
  intros Hb Hp Hu Hune Hpw Hpne Hc token.
  assert (Hrun : forall rev,
             outcome cognito
               (handler_of Number_toString cognitoClientId cognitoClientSecret rev
                  Authenticate event)
             = Returned (reply rev Authenticate (Accepted token))).
  { intros rev. unfold outcome. rewrite run_handler_of. unfold uniform_run.
    rewrite (body_text_parsed _ _ _ Hb Hp), Hp, destructure_object.
    unfold some_field_falsy, required_fields. cbn [existsb].
    rewrite Hu, Hpw. cbn [default from_option id].
    rewrite (nonempty_truthy _ Hune), (nonempty_truthy _ Hpne). cbn [negb orb].
    rewrite calculateSecretHash_of_ToString. cbn [ToString fmap option_fmap option_map snd].
    unfold consult, initiateAuth_params. rewrite Hu, Hpw. cbn [default from_option id].
    rewrite Hc. reflexivity. }
  split.
  - intros Hf rev. rewrite Hrun. cbn [reply]. rewrite Hf. reflexivity.
  - intros t Ht Htne. apply jsstring_eqb_neq in Htne.
    split.
    + pose proof (Hrun SrcIndex) as H. cbn [handler_of] in H. rewrite H.
      cbn [reply]. rewrite Ht. cbn [falsy]. rewrite Htne. reflexivity.
    + pose proof (Hrun WithRespond) as H. cbn [handler_of] in H. rewrite H.
      cbn [reply]. rewrite Ht. cbn [falsy]. rewrite Htne. reflexivity.
Qed.

Lemma authenticate_success_witness :
  outcome (accepting (Some (js "eyJraWQ")))
    (Index.authenticate unread_format (js "client") (js "secret")
       (request "{'username':'00011122233','password':'@dR0m3d_'}"))
  = Returned (APIGatewayProxyResult.mk 200 (object_text (js "accessToken") (js "eyJraWQ")))
  /\ outcome (accepting (Some (js "eyJraWQ")))
       (Refactored.authenticate unread_format (js "client") (js "secret")
          (request "{'username':'00011122233','password':'@dR0m3d_'}"))
     = Returned (APIGatewayProxyResult.mk 200 (object_text (js "message") (js "eyJraWQ"))).
Proof.
  refine (proj2 (authenticate_success unread_format (js "client") (js "secret")
                   (accepting (Some (js "eyJraWQ")))
                   (request "{'username':'00011122233','password':'@dR0m3d_'}")
                   (quoted "{'username':'00011122233','password':'@dR0m3d_'}")
                   [(js "username", VString (js "00011122233"));
                    (js "password", VString (js "@dR0m3d_"))]
                   (js "00011122233") (js "@dR0m3d_")
                   (InitiateAuthResponse.mk
                      (Some (InitiateAuthResponse.mkAuthenticationResult
                               (Some (js "eyJraWQ")))))
                   _ _ _ _ _ _ _) (js "eyJraWQ") _ _).
  - reflexivity.
  - vm_compute. reflexivity.
  - reflexivity.
  - discriminate.
  - reflexivity.
  - discriminate.
  - reflexivity.
  - reflexivity.
  - discriminate.
Defined.

(** C2 fails on the [respond] revision: the token of a successful
    authentication is under the key [message], not [accessToken]. *)
Lemma authenticate_token_key_counterexample :
  outcome (accepting (Some (js "eyJraWQ")))
    (Refactored.authenticate unread_format (js "client") (js "secret")
       (request "{'username':'00011122233','password':'@dR0m3d_'}"))
  = Returned (APIGatewayProxyResult.mk 200 (object_text (js "message") (js "eyJraWQ")))
  /\ object_text (js "message") (js "eyJraWQ")
     <> object_text (js "accessToken") (js "eyJraWQ").
Proof. vm_compute. split; [reflexivity|discriminate]. Qed.

(** C7, as the code has it. For a register request whose body parses to a
    value other than null: where email, username or password is absent or
    falsy, the answer is 400, with the message [Missing email, username or
    password] in src/index.ts and [Missing email, username, or password]
    in the [respond] revision; where the three are non-empty strings, an
    accepted sign-up is answered 200 with [User created], a sign-up refused
    with a reason is answered 400 with that reason, and one refused without
    a reason is answered 400 with [User registration failed] by the
    [respond] revision, and with what it got by src/index.ts. *)
Theorem register_outcomes
  (Number_toString : number -> jsstring) (cognitoClientId cognitoClientSecret : jsstring)
  (cognito : Cognito) (event : APIGatewayProxyEvent.t)
  (b : jsstring) (v : value) (field : jsstring -> value) :
  APIGatewayProxyEvent.body event = Some b ->
  JSON.parse b = Some v ->
  destructure v = Some field ->
  ((exists k, In k [js "email"; js "username"; js "password"] /\ ToBoolean (field k) = false) ->
   outcome cognito (Index.register Number_toString cognitoClientId cognitoClientSecret event)
   = Returned (APIGatewayProxyResult.mk 400
                 (object_text (js "message") (js "Missing email, username or password")))
   /\ outcome cognito
        (Refactored.register Number_toString cognitoClientId cognitoClientSecret event)
      = Returned (APIGatewayProxyResult.mk 400
                    (object_text (js "message") (js "Missing email, username, or password"))))
  /\ (forall email username password,
        field (js "email") = VString email -> email <> [] ->
        field (js "username") = VString username -> username <> [] ->
        field (js "password") = VString password -> password <> [] ->
        let call :=
          signUp
            (SignUpRequest.mk cognitoClientId (VString password) (VString username)
               [SignUpRequest.mkAttribute (js "email") (VString email)]
               (Crypto.createHmac_sha256_base64 cognitoClientSecret
                  (username ++ cognitoClientId))) in
        (forall rev response,
            cognito unit call = Fulfilled response ->
            outcome cognito
              (handler_of Number_toString cognitoClientId cognitoClientSecret rev Register event)
            = Returned (APIGatewayProxyResult.mk 200
                          (object_text (js "message") (js "User created"))))
        /\ (forall rev reason,
              cognito unit call = Rejected (mkError (Some reason)) -> reason <> [] ->
              outcome cognito
                (handler_of Number_toString cognitoClientId cognitoClientSecret rev Register
                   event)
              = Returned (APIGatewayProxyResult.mk 400
                            (JSON.stringify [(js "message", Some reason)])))
        /\ (forall reason,
              cognito unit call = Rejected (mkError reason) -> falsy reason = true ->
              outcome cognito
                (Refactored.register Number_toString cognitoClientId cognitoClientSecret event)
              = Returned (APIGatewayProxyResult.mk 400
                            (object_text (js "message") (js "User registration failed")))
              /\ outcome cognito
                   (Index.register Number_toString cognitoClientId cognitoClientSecret event)
                 = Returned (APIGatewayProxyResult.mk 400
                               (JSON.stringify [(js "message", reason)])))).
Proof.
  intros Hb Hp Hd. split.
  - intros Hk. split.
    + exact (f_equal snd
               (validation_stops Number_toString cognitoClientId cognitoClientSecret cognito
                  SrcIndex Register event b v field Hb Hp Hd Hk)).
    + exact (f_equal snd
               (validation_stops Number_toString cognitoClientId cognitoClientSecret cognito
                  WithRespond Register event b v field Hb Hp Hd Hk)).
  - intros email username password He Hene Hu Hune Hpw Hpne call.
    assert (Hrun : forall rev,
               outcome cognito
                 (handler_of Number_toString cognitoClientId cognitoClientSecret rev
                    Register event)
               = Returned (reply rev Register
                             match cognito unit call with
                             | Fulfilled _ => Accepted None
                             | Rejected error => Refused (message error)
                             end)).
    { intros rev. unfold outcome. rewrite run_handler_of. unfold uniform_run.
      rewrite (body_text_parsed _ _ _ Hb Hp), Hp, Hd.
      unfold some_field_falsy, required_fields. cbn [existsb].
      rewrite He, Hu, Hpw.
      rewrite (nonempty_truthy _ Hene), (nonempty_truthy _ Hune), (nonempty_truthy _ Hpne).
      cbn [negb orb].
      rewrite calculateSecretHash_of_ToString. cbn [ToString fmap option_fmap option_map snd].
      unfold consult, signUp_params. rewrite He, Hu, Hpw. reflexivity. }
    split; [|split].
    + intros rev response Hc. rewrite Hrun, Hc. destruct rev; reflexivity.
    + intros rev reason Hc Hr. rewrite Hrun, Hc. apply jsstring_eqb_neq in Hr.
      destruct rev; cbn [reply message or_else]; [|rewrite Hr]; reflexivity.
    + intros reason Hc Hr. split.
      * pose proof (Hrun WithRespond) as H. cbn [handler_of] in H. rewrite H, Hc.
        cbn [reply message].
        destruct reason as [r|]; cbn [or_else falsy] in *; [rewrite Hr|]; reflexivity.
      * pose proof (Hrun SrcIndex) as H. cbn [handler_of] in H. rewrite H, Hc.
        reflexivity.
Qed.

(** The sign-up of the specification's example, accepted. *)
Lemma register_outcomes_witness :
  outcome (accepting None)
    (handler_of unread_format (js "client") (js "secret") WithRespond Register
       (request "{'email':'a@b.com','username':'u1','password':'p1'}"))
  = Returned (APIGatewayProxyResult.mk 200 (object_text (js "message") (js "User created"))).
Proof.
  refine (proj1 (proj2 (register_outcomes unread_format (js "client") (js "secret")
                          (accepting None)
                          (request "{'email':'a@b.com','username':'u1','password':'p1'}")
                          (quoted "{'email':'a@b.com','username':'u1','password':'p1'}")
                          (VObject [(js "email", VString (js "a@b.com"));
                                    (js "username", VString (js "u1"));
                                    (js "password", VString (js "p1"))])
                          (fun k => default VUndefined
                                      (own_property k
                                         [(js "email", VString (js "a@b.com"));
                                          (js "username", VString (js "u1"));
                                          (js "password", VString (js "p1"))]))
                          _ _ _)
                  (js "a@b.com") (js "u1") (js "p1") _ _ _ _ _ _) WithRespond tt _).
  - reflexivity.
  - vm_compute. reflexivity.
  - reflexivity.
  - reflexivity.
  - discriminate.
  - reflexivity.
  - discriminate.
  - reflexivity.
  - discriminate.
  - reflexivity.
Defined.

(** C7 fails on src/index.ts: the message of the 400 has no comma before
    [or], and a refusal without a reason gets no fallback message. *)
Lemma register_message_counterexample :
  outcome (accepting None)
    (Index.register unread_format (js "client") (js "secret") (request "{}"))
  = Returned (APIGatewayProxyResult.mk 400
                (object_text (js "message") (js "Missing email, username or password")))
  /\ object_text (js "message") (js "Missing email, username or password")
     <> object_text (js "message") (js "Missing email, username, or password")
  /\ outcome (rejecting None)
       (Index.register unread_format (js "client") (js "secret")
          (request "{'email':'a@b.com','username':'u1','password':'p1'}"))
     = Returned (APIGatewayProxyResult.mk 400 (js "{}")).
Proof. vm_compute. split; [reflexivity|split; [discriminate|reflexivity]]. Qed.

(** * Further properties of the code *)

(** Once validation has passed and the username has its string, the
    handler makes its call and answers from what it learns. *)
Lemma run_validated
  (Number_toString : number -> jsstring) (cognitoClientId cognitoClientSecret : jsstring)
  (cognito : Cognito) (rev : revision) (h : body_handler) (event : APIGatewayProxyEvent.t)
  (b : jsstring) (v : value) (field : jsstring -> value) (u : jsstring) :
  APIGatewayProxyEvent.body event = Some b ->
  JSON.parse b = Some v ->
  destructure v = Some field ->
  (forall k, In k (required_fields h) -> ToBoolean (field k) = true) ->
  ToString Number_toString (field (js "username")) = Some u ->
  let secretHash :=
    Crypto.createHmac_sha256_base64 cognitoClientSecret (u ++ cognitoClientId) in
  run cognito (handler_of Number_toString cognitoClientId cognitoClientSecret rev h event)
  = ([provider_call cognitoClientId h field secretHash],
     Returned (reply rev h (consult cognitoClientId cognito h field secretHash))).
Proof.
  intros Hb Hp Hd Hall Hu. cbv zeta. rewrite run_handler_of. unfold uniform_run.
  rewrite (body_text_parsed _ _ _ Hb Hp), Hp, Hd, (all_fields_truthy _ _ Hall).
  rewrite calculateSecretHash_of_ToString, Hu. reflexivity.
Qed.

Lemma or_else_truthy (reason fallback : jsstring) :
  reason <> [] -> or_else (Some reason) fallback = reason.
Proof. intros H. cbn [or_else]. apply jsstring_eqb_neq in H. rewrite H. reflexivity. Qed.

Lemma or_else_falsy (reason : option jsstring) (fallback : jsstring) :
  falsy reason = true -> or_else reason fallback = fallback.
Proof. destruct reason as [r|]; cbn [falsy or_else]; [intros ->|]; reflexivity. Qed.

(** X1. confirm, once username and code are truthy and the username has
    its string: whatever their types, they go to [confirmSignUp] as parsed;
    an accepted confirmation is answered 200 with [User confirmed] by both
    revisions, one refused with a reason 400 with that reason, and one
    refused without a reason 400 with [Confirmation failed] by the
    [respond] revision and with the message as it came by src/index.ts. *)
Theorem confirm_outcomes
  (Number_toString : number -> jsstring) (cognitoClientId cognitoClientSecret : jsstring)
  (cognito : Cognito) (event : APIGatewayProxyEvent.t)
  (b : jsstring) (v : value) (field : jsstring -> value) (u : jsstring) :
  APIGatewayProxyEvent.body event = Some b ->
  JSON.parse b = Some v ->
  destructure v = Some field ->
  ToBoolean (field (js "username")) = true ->
  ToBoolean (field (js "code")) = true ->
  ToString Number_toString (field (js "username")) = Some u ->
  let call :=
    confirmSignUp
      (ConfirmSignUpRequest.mk cognitoClientId (field (js "code")) (field (js "username"))
         (Crypto.createHmac_sha256_base64 cognitoClientSecret (u ++ cognitoClientId))) in
  (forall rev,
      calls_of cognito
        (handler_of Number_toString cognitoClientId cognitoClientSecret rev Confirm event)
      = [called call])
  /\ (forall rev response,
        cognito unit call = Fulfilled response ->
        outcome cognito
          (handler_of Number_toString cognitoClientId cognitoClientSecret rev Confirm event)
        = Returned (APIGatewayProxyResult.mk 200
                      (object_text (js "message") (js "User confirmed"))))
  /\ (forall rev reason,
        cognito unit call = Rejected (mkError (Some reason)) -> reason <> [] ->
        outcome cognito
          (handler_of Number_toString cognitoClientId cognitoClientSecret rev Confirm event)
        = Returned (APIGatewayProxyResult.mk 400
                      (JSON.stringify [(js "message", Some reason)])))
  /\ (forall reason,
        cognito unit call = Rejected (mkError reason) -> falsy reason = true ->
        outcome cognito
          (Refactored.confirm Number_toString cognitoClientId cognitoClientSecret event)
        = Returned (APIGatewayProxyResult.mk 400
                      (object_text (js "message") (js "Confirmation failed")))
        /\ outcome cognito
             (Index.confirm Number_toString cognitoClientId cognitoClientSecret event)
           = Returned (APIGatewayProxyResult.mk 400
                         (JSON.stringify [(js "message", reason)]))).
Proof.
  intros Hb Hp Hd Hu Hc Hs call.
  assert (Hall : forall k, In k (required_fields Confirm) -> ToBoolean (field k) = true).
  { intros k [<-|[<-|[]]]; assumption. }
  assert (Hrun : forall rev,
             run cognito
               (handler_of Number_toString cognitoClientId cognitoClientSecret rev Confirm
                  event)
             = ([called call],
                Returned (reply rev Confirm
                            match cognito unit call with
                            | Fulfilled _ => Accepted None
                            | Rejected error => Refused (message error)
                            end))).
  { intros rev.
    exact (run_validated Number_toString cognitoClientId cognitoClientSecret cognito rev
             Confirm event b v field u Hb Hp Hd Hall Hs). }
  unfold calls_of, outcome. split; [|split; [|split]].
  - intros rev. rewrite Hrun. reflexivity.
  - intros rev response Hf. rewrite Hrun, Hf. destruct rev; reflexivity.
  - intros rev reason Hr Hne. rewrite Hrun, Hr. cbn [snd reply message].
    destruct rev; [reflexivity|]. rewrite (or_else_truthy _ _ Hne). reflexivity.
  - intros reason Hr Hf. split.
    + pose proof (Hrun WithRespond) as H. cbn [handler_of] in H. rewrite H, Hr.
      cbn [snd reply message]. rewrite (or_else_falsy _ _ Hf). reflexivity.
    + pose proof (Hrun SrcIndex) as H. cbn [handler_of] in H. rewrite H, Hr. reflexivity.
Qed.

(** The confirmation of the manual tests, the code sent as a number. *)
Lemma confirm_outcomes_witness :
  calls_of (accepting None)
    (handler_of unread_format (js "client") (js "secret") SrcIndex Confirm
       (request "{'username':'00011122233','code':864798}"))
  = [called (confirmSignUp
               (ConfirmSignUpRequest.mk (js "client") (VNumber (Number false 864798 0))
                  (VString (js "00011122233"))
                  (Crypto.createHmac_sha256_base64 (js "secret") (js "00011122233client"))))].
Proof.
  refine (proj1 (confirm_outcomes unread_format (js "client") (js "secret")
                   (accepting None)
                   (request "{'username':'00011122233','code':864798}")
                   (quoted "{'username':'00011122233','code':864798}")
                   (VObject [(js "username", VString (js "00011122233"));
                             (js "code", VNumber (Number false 864798 0))])
                   (fun k => default VUndefined
                               (own_property k
                                  [(js "username", VString (js "00011122233"));
                                   (js "code", VNumber (Number false 864798 0))]))
                   (js "00011122233") _ _ _ _ _ _) SrcIndex).
  - reflexivity.
  - vm_compute. reflexivity.
  - reflexivity.
  - reflexivity.
  - reflexivity.
  - reflexivity.
Defined.

(** X2. authenticate, once username and password are truthy and the
    username has its string, when [initiateAuth] is rejected: a rejection
    with a reason is answered 400 with that reason by both revisions; one
    without a reason 400 with [Authentication failed] by the [respond]
    revision and with the message as it came by src/index.ts.  No
    rejection is answered with another status. *)
Theorem authenticate_rejected
  (Number_toString : number -> jsstring) (cognitoClientId cognitoClientSecret : jsstring)
  (cognito : Cognito) (event : APIGatewayProxyEvent.t)
  (b : jsstring) (v : value) (field : jsstring -> value) (u : jsstring)
  (reason : option jsstring) :
  APIGatewayProxyEvent.body event = Some b ->
  JSON.parse b = Some v ->
  destructure v = Some field ->
  ToBoolean (field (js "username")) = true ->
  ToBoolean (field (js "password")) = true ->
  ToString Number_toString (field (js "username")) = Some u ->
  cognito InitiateAuthResponse.t
    (initiateAuth
       (InitiateAuthRequest.mk (js "USER_PASSWORD_AUTH") cognitoClientId
          (InitiateAuthRequest.mkAuthParameters (field (js "username"))
             (field (js "password"))
             (Crypto.createHmac_sha256_base64 cognitoClientSecret (u ++ cognitoClientId)))))
  = Rejected (mkError reason) ->
  outcome cognito
    (Index.authenticate Number_toString cognitoClientId cognitoClientSecret event)
  = Returned (APIGatewayProxyResult.mk 400 (JSON.stringify [(js "message", reason)]))
  /\ outcome cognito
       (Refactored.authenticate Number_toString cognitoClientId cognitoClientSecret event)
     = Returned (APIGatewayProxyResult.mk 400
                   (JSON.stringify
                      [(js "message", Some (or_else reason (js "Authentication failed")))]))
  /\ (forall r, reason = Some r -> r <> [] ->
                or_else reason (js "Authentication failed") = r)
  /\ (falsy reason = true ->
      or_else reason (js "Authentication failed") = js "Authentication failed").
Proof.
  intros Hb Hp Hd Hu Hpw Hs Hc.
  assert (Hall : forall k, In k (required_fields Authenticate) -> ToBoolean (field k) = true).
  { intros k [<-|[<-|[]]]; assumption. }
  assert (Hrun : forall rev,
             outcome cognito
               (handler_of Number_toString cognitoClientId cognitoClientSecret rev
                  Authenticate event)
             = Returned (reply rev Authenticate (Refused reason))).
  { intros rev. unfold outcome.
    rewrite (run_validated Number_toString cognitoClientId cognitoClientSecret cognito rev
               Authenticate event b v field u Hb Hp Hd Hall Hs).
    cbn [snd consult]. unfold initiateAuth_params. rewrite Hc. reflexivity. }
  split; [|split; [|split]].
  - exact (Hrun SrcIndex).
  - exact (Hrun WithRespond).
  - intros r -> Hne. exact (or_else_truthy _ _ Hne).
  - exact (or_else_falsy reason _).
Qed.

Lemma authenticate_rejected_witness :
  outcome (rejecting (Some (js "Incorrect username or password.")))
    (Index.authenticate unread_format (js "client") (js "secret")
       (request "{'username':'00011122233','password':'wrong'}"))
  = Returned (APIGatewayProxyResult.mk 400
                (object_text (js "message") (js "Incorrect username or password."))).
Proof.
  refine (proj1 (authenticate_rejected unread_format (js "client") (js "secret")
                   (rejecting (Some (js "Incorrect username or password.")))
                   (request "{'username':'00011122233','password':'wrong'}")
                   (quoted "{'username':'00011122233','password':'wrong'}")
                   (VObject [(js "username", VString (js "00011122233"));
                             (js "password", VString (js "wrong"))])
                   (fun k => default VUndefined
                               (own_property k
                                  [(js "username", VString (js "00011122233"));
                                   (js "password", VString (js "wrong"))]))
                   (js "00011122233") (Some (js "Incorrect username or password."))
                   _ _ _ _ _ _ _)).
  - reflexivity.
  - vm_compute. reflexivity.
  - reflexivity.
  - reflexivity.
  - reflexivity.
  - reflexivity.
  - reflexivity.
Defined.

(** X3. No handler calls the provider twice: an invocation makes at most
    one call.  authenticate, register and confirm throw only before their
    call: an invocation that ends in an uncaught error has made none, and
    one that has made a call ends in a response. *)
Theorem at_most_one_call
  (Number_toString : number -> jsstring) (cognitoClientId cognitoClientSecret : jsstring)
  (cognito : Cognito) (rev : revision) (event : APIGatewayProxyEvent.t) :
  (length (calls_of cognito (authorize_of rev event)) <= 1)%nat
  /\ (forall h,
        (length (calls_of cognito
                   (handler_of Number_toString cognitoClientId cognitoClientSecret rev h
                      event)) <= 1)%nat)
  /\ (forall h e,
        outcome cognito
          (handler_of Number_toString cognitoClientId cognitoClientSecret rev h event)
        = Uncaught e ->
        calls_of cognito
          (handler_of Number_toString cognitoClientId cognitoClientSecret rev h event) = [])
  /\ (forall h,
        calls_of cognito
          (handler_of Number_toString cognitoClientId cognitoClientSecret rev h event) <> [] ->
        exists response,
          outcome cognito
            (handler_of Number_toString cognitoClientId cognitoClientSecret rev h event)
          = Returned response).
Proof.
  unfold calls_of, outcome. split; [|split; [|split]].
  - destruct (authorization event) as [header|] eqn:E.
    + rewrite (authorize_of_present rev cognito event header E). cbn. lia.
    + rewrite (authorize_of_missing rev event E). cbn. lia.
  - intros h. rewrite run_handler_of. unfold uniform_run.
    repeat match goal with
           | |- context [match ?x with _ => _ end] => destruct x
           end; cbn; lia.
  - intros h e. rewrite run_handler_of. unfold uniform_run.
    repeat match goal with
           | |- context [match ?x with _ => _ end] => destruct x
           end; cbn; intros H; try reflexivity; discriminate H.
  - intros h. rewrite run_handler_of. unfold uniform_run.
    repeat match goal with
           | |- context [match ?x with _ => _ end] => destruct x
           end; cbn; intros H; try (exfalso; apply H; reflexivity); eexists; reflexivity.
Qed.

Lemma at_most_one_call_witness :
  calls_of (accepting None)
    (handler_of unread_format (js "client") (js "secret") WithRespond Register
       (request "{'email':'a@b.com','username':{'toString':1},'password':'p1'}"))
  = [].
Proof.
  refine (proj1 (proj2 (proj2
            (at_most_one_call unread_format (js "client") (js "secret") (accepting None)
               WithRespond
               (request "{'email':'a@b.com','username':{'toString':1},'password':'p1'}"))))
            Register TypeError _).
  vm_compute. reflexivity.
Defined.

Lemma authorization_empty (event : APIGatewayProxyEvent.t) :
  APIGatewayProxyEvent.headers event ≫= (.!! js "Authorization") = Some ([] : jsstring) ->
  authorization event = None.
Proof. unfold authorization. intros ->. reflexivity. Qed.

(** X4. authorize consults the provider exactly when the [Authorization]
    header is truthy.  An entry with the empty string as its value is
    answered like a missing one: 401 with [Missing Authorization header]. *)
Theorem authorize_consults_iff
  (rev : revision) (cognito : Cognito) (event : APIGatewayProxyEvent.t) :
  (calls_of cognito (authorize_of rev event) = []
   <-> APIGatewayProxyEvent.headers event ≫= (.!! js "Authorization") = None
       \/ APIGatewayProxyEvent.headers event ≫= (.!! js "Authorization") = Some ([] : jsstring))
  /\ (APIGatewayProxyEvent.headers event ≫= (.!! js "Authorization") = Some ([] : jsstring) ->
      run cognito (authorize_of rev event)
      = ([], Returned (APIGatewayProxyResult.mk 401
                         (object_text (js "message") (js "Missing Authorization header"))))).
Proof.
  pose proof (authorization_empty event) as Hempty.
  split.
  - unfold calls_of. split.
    + destruct (APIGatewayProxyEvent.headers event ≫= (.!! js "Authorization"))
        as [[|c header]|] eqn:E; auto.
      rewrite (authorize_of_present rev cognito event (c :: header)
                 (authorization_Some _ _ E ltac:(discriminate))).
      discriminate.
    + intros [H|H].
      * rewrite (authorize_of_missing rev event (authorization_None _ H)). reflexivity.
      * rewrite (authorize_of_missing rev event (Hempty H)). reflexivity.
  - intros H. rewrite (authorize_of_missing rev event (Hempty H)). reflexivity.
Qed.

Lemma authorize_consults_iff_witness :
  run (accepting None) (authorize_of SrcIndex (request_with_header "Authorization" ""))
  = ([], Returned (APIGatewayProxyResult.mk 401
                     (object_text (js "message") (js "Missing Authorization header")))).
Proof.
  apply (proj2 (authorize_consults_iff SrcIndex (accepting None)
                  (request_with_header "Authorization" ""))).
  vm_compute. reflexivity.
Defined.

(** X5. A body that is JSON but no object, be it an array, a string, a
    number or a boolean, has none of the fields: authenticate, register and
    confirm answer it 400 with their missing-fields message and call no
    provider. *)
Theorem non_object_body
  (Number_toString : number -> jsstring) (cognitoClientId cognitoClientSecret : jsstring)
  (cognito : Cognito) (rev : revision) (h : body_handler) (event : APIGatewayProxyEvent.t)
  (b : jsstring) (v : value) :
  APIGatewayProxyEvent.body event = Some b ->
  JSON.parse b = Some v ->
  ((exists elems, v = VArray elems) \/ (exists s, v = VString s)
   \/ (exists n, v = VNumber n) \/ (exists x, v = VBoolean x)) ->
  run cognito (handler_of Number_toString cognitoClientId cognitoClientSecret rev h event)
  = ([], Returned (APIGatewayProxyResult.mk 400
                     (object_text (js "message") (missing_fields_message rev h)))).
Proof.
  intros Hb Hp Hv.
  apply (validation_stops Number_toString cognitoClientId cognitoClientSecret cognito rev h
           event b v (fun _ => VUndefined) Hb Hp).
  - destruct Hv as [[x ->]|[[x ->]|[[x ->]|[x ->]]]]; reflexivity.
  - exists (js "username"). split; [|reflexivity].
    destruct h; cbn [required_fields In]; auto.
Qed.

Lemma non_object_body_witness :
  run (accepting None)
    (handler_of unread_format (js "client") (js "secret") SrcIndex Confirm
       (request "['00011122233','864798']"))
  = ([], Returned (APIGatewayProxyResult.mk 400
                     (object_text (js "message") (js "Missing username or code")))).
Proof.
  refine (non_object_body unread_format (js "client") (js "secret") (accepting None)
            SrcIndex Confirm (request "['00011122233','864798']")
            (quoted "['00011122233','864798']")
            (VArray [VString (js "00011122233"); VString (js "864798")]) _ _ _).
  - reflexivity.
  - vm_compute. reflexivity.
  - left. eexists. reflexivity.
Defined.

(** X6. For a header of the usual form, ["Bearer "] followed by a token,
    the token sent to [getUser] is that token, whatever it holds, a
    further ["Bearer "] included. *)
Theorem authorize_bearer_prefix
  (rev : revision) (cognito : Cognito) (event : APIGatewayProxyEvent.t) (token : jsstring) :
  APIGatewayProxyEvent.headers event ≫= (.!! js "Authorization")
  = Some (js "Bearer " ++ token) ->
  calls_of cognito (authorize_of rev event) = [called (getUser (GetUserRequest.mk token))].
Proof.
  intros H. unfold calls_of.
  rewrite (authorize_of_present rev cognito event (js "Bearer " ++ token)
             (authorization_Some _ _ H ltac:(discriminate))).
  cbn [fst].
  pose proof (String_replace_first (js "Bearer ") [] [] token) as Hfirst.
  change ([] ++ js "Bearer " ++ token) with (js "Bearer " ++ token) in Hfirst.
  rewrite Hfirst; [reflexivity|].
  intros pre' post' _. cbn. lia.
Qed.

Lemma authorize_bearer_prefix_witness :
  calls_of (accepting None)
    (authorize_of WithRespond (request_with_header "Authorization" "Bearer Bearer abc"))
  = [called (getUser (GetUserRequest.mk (js "Bearer abc")))].
Proof.
  apply (authorize_bearer_prefix WithRespond (accepting None)
           (request_with_header "Authorization" "Bearer Bearer abc") (js "Bearer abc")).
  vm_compute. reflexivity.
Defined.

Lemma drive_whitespace (l : jsstring) :
  Forall (fun c => JSON.is_whitespace c = true) l ->
  JSON.drive ([], JSON.ExpectValue) 0 l = None.
Proof.
  induction 1 as [|c l Hc _ IH]; [reflexivity|].
  cbn [JSON.drive]. unfold JSON.step. rewrite Hc. exact IH.
Qed.

(** X7. A body of white space only (spaces, tabs, line ends) is not
    taken for a missing body: it is truthy, [JSON.parse] finds no value in
    it, and authenticate, register and confirm end in the uncaught
    SyntaxError without a provider call. *)
Theorem blank_body_throws
  (Number_toString : number -> jsstring) (cognitoClientId cognitoClientSecret : jsstring)
  (cognito : Cognito) (rev : revision) (h : body_handler) (event : APIGatewayProxyEvent.t)
  (b : jsstring) :
  APIGatewayProxyEvent.body event = Some b ->
  b <> [] ->
  Forall (fun c => c = 32 \/ c = 9 \/ c = 10 \/ c = 13) b ->
  run cognito (handler_of Number_toString cognitoClientId cognitoClientSecret rev h event)
  = ([], Uncaught SyntaxError).
Proof.
  intros Hb Hne Hws. rewrite run_handler_of. unfold uniform_run.
  rewrite (body_text_truthy _ _ Hb Hne).
  unfold JSON.parse. rewrite drive_whitespace; [reflexivity|].
  eapply Forall_impl; [exact Hws|].
  intros c [->|[->|[->| ->]]]; reflexivity.
Qed.

Lemma blank_body_throws_witness :
  run (accepting None)
    (handler_of unread_format (js "client") (js "secret") SrcIndex Authenticate
       (request "  "))
  = ([], Uncaught SyntaxError).
Proof.
  refine (blank_body_throws unread_format (js "client") (js "secret") (accepting None)
            SrcIndex Authenticate (request "  ") (js "  ") _ _ _).
  - reflexivity.
  - discriminate.
  - repeat constructor.
Defined.

Lemma reply_status_agrees (h : body_handler) (o : provider_outcome) :
  APIGatewayProxyResult.statusCode (reply SrcIndex h o)
  = APIGatewayProxyResult.statusCode (reply WithRespond h o).
Proof.
  destruct o as [token|reason], h; cbn [reply]; try destruct (falsy token); reflexivity.
Qed.

(** X8. The two revisions differ in the bodies of their answers only:
    on every request and against every provider they make the same
    provider calls, and they end with the same status code or with the
    same uncaught error. *)
Theorem revisions_agree
  (Number_toString : number -> jsstring) (cognitoClientId cognitoClientSecret : jsstring)
  (cognito : Cognito) (event : APIGatewayProxyEvent.t) :
  calls_of cognito (authorize_of SrcIndex event)
  = calls_of cognito (authorize_of WithRespond event)
  /\ ending_status (outcome cognito (authorize_of SrcIndex event))
     = ending_status (outcome cognito (authorize_of WithRespond event))
  /\ (forall h,
        calls_of cognito
          (handler_of Number_toString cognitoClientId cognitoClientSecret SrcIndex h event)
        = calls_of cognito
            (handler_of Number_toString cognitoClientId cognitoClientSecret WithRespond h
               event))
  /\ (forall h,
        ending_status
          (outcome cognito
             (handler_of Number_toString cognitoClientId cognitoClientSecret SrcIndex h
                event))
        = ending_status
            (outcome cognito
               (handler_of Number_toString cognitoClientId cognitoClientSecret WithRespond h
                  event))).
Proof.
  assert (Hauth : calls_of cognito (authorize_of SrcIndex event)
                  = calls_of cognito (authorize_of WithRespond event)
                  /\ ending_status (outcome cognito (authorize_of SrcIndex event))
                     = ending_status (outcome cognito (authorize_of WithRespond event))).
  { unfold calls_of, outcome. destruct (authorization event) as [header|] eqn:E.
    - rewrite !(authorize_of_present _ cognito event header E). cbn [fst snd].
      split; [reflexivity|]. destruct (cognito unit _); reflexivity.
    - rewrite !(authorize_of_missing _ event E). split; reflexivity. }
  assert (Hbody : forall h,
             calls_of cognito
               (handler_of Number_toString cognitoClientId cognitoClientSecret SrcIndex h
                  event)
             = calls_of cognito
                 (handler_of Number_toString cognitoClientId cognitoClientSecret WithRespond
                    h event)
             /\ ending_status
                  (outcome cognito
                     (handler_of Number_toString cognitoClientId cognitoClientSecret
                        SrcIndex h event))
                = ending_status
                    (outcome cognito
                       (handler_of Number_toString cognitoClientId cognitoClientSecret
                          WithRespond h event))).
  { intros h. unfold calls_of, outcome. rewrite !run_handler_of. unfold uniform_run.
    destruct (body_text event) as [b|]; [|split; reflexivity].
    destruct (JSON.parse b) as [v|]; [|split; reflexivity].
    destruct (destructure v) as [field|]; [|split; reflexivity].
    destruct (some_field_falsy h field); [split; reflexivity|].
    rewrite !calculateSecretHash_of_ToString.
    destruct (ToString Number_toString (field (js "username"))) as [u|];
      [|split; reflexivity].
    cbn [fmap option_fmap option_map fst snd ending_status].
    split; [reflexivity|]. rewrite reply_status_agrees. reflexivity. }
  destruct Hauth as [Ha1 Ha2].
  split; [exact Ha1|]. split; [exact Ha2|].
  split; intros h; apply Hbody.
Qed.

Lemma or_else_nonempty (reason : option jsstring) (fallback : jsstring) :
  fallback <> [] -> or_else reason fallback <> [].
Proof.
  intros Hf. destruct reason as [r|]; cbn [or_else]; [|exact Hf].
  destruct (jsstring_eqb r []) eqn:E; [exact Hf|]. apply jsstring_eqb_neq. exact E.
Qed.

Lemma reply_respond_nonempty (h : body_handler) (o : provider_outcome) :
  exists status message,
    reply WithRespond h o = Refactored.respond status message /\ message <> [].
Proof.
  destruct o as [token|reason].
  - destruct h; cbn [reply].
    + destruct token as [t|]; cbn [falsy default from_option id].
      * destruct (jsstring_eqb t []) eqn:E.
        -- do 2 eexists. split; [reflexivity|discriminate].
        -- do 2 eexists. split; [reflexivity|]. apply jsstring_eqb_neq. exact E.
      * do 2 eexists. split; [reflexivity|discriminate].
    + do 2 eexists. split; [reflexivity|discriminate].
    + do 2 eexists. split; [reflexivity|discriminate].
  - cbn [reply]. do 2 eexists. split; [reflexivity|].
    apply or_else_nonempty. destruct h; discriminate.
Qed.

(** X9. In the revision built on [respond], every answer of every handler
    is [respond status message] with a message that is not empty: the
    fallback of [message || ...] and the test of the access token leave no
    way to an answer without a message. *)
Theorem respond_message_nonempty
  (Number_toString : number -> jsstring) (cognitoClientId cognitoClientSecret : jsstring)
  (cognito : Cognito) (event : APIGatewayProxyEvent.t) (response : APIGatewayProxyResult.t) :
  outcome cognito (Refactored.authorize event) = Returned response
  \/ outcome cognito
       (Refactored.authenticate Number_toString cognitoClientId cognitoClientSecret event)
     = Returned response
  \/ outcome cognito
       (Refactored.register Number_toString cognitoClientId cognitoClientSecret event)
     = Returned response
  \/ outcome cognito
       (Refactored.confirm Number_toString cognitoClientId cognitoClientSecret event)
     = Returned response ->
  exists status message,
    response = Refactored.respond status message /\ message <> [].
Proof.
  assert (Hbody : forall h,
             outcome cognito
               (handler_of Number_toString cognitoClientId cognitoClientSecret WithRespond h
                  event) = Returned response ->
             exists status message,
               response = Refactored.respond status message /\ message <> []).
  { intros h. unfold outcome. rewrite run_handler_of. unfold uniform_run.
    destruct (body_text event) as [b|].
    2:{ intros [= <-]. do 2 eexists. split; [reflexivity|discriminate]. }
    destruct (JSON.parse b) as [v|]; [|discriminate].
    destruct (destructure v) as [field|]; [|discriminate].
    destruct (some_field_falsy h field).
    { intros [= <-]. do 2 eexists. split; [reflexivity|]. destruct h; discriminate. }
    destruct (calculateSecretHash_of _ _ _ _ _) as [secretHash|]; [|discriminate].
    cbn [snd]. intros [= <-]. apply reply_respond_nonempty. }
  intros [H|[H|[H|H]]].
  - revert H. unfold outcome. change Refactored.authorize with (authorize_of WithRespond).
    destruct (authorization event) as [header|] eqn:E.
    + rewrite (authorize_of_present WithRespond cognito event header E). cbn [snd].
      destruct (cognito unit _); intros [= <-]; do 2 eexists;
        (split; [reflexivity|]); [discriminate|].
      apply or_else_nonempty. discriminate.
    + rewrite (authorize_of_missing WithRespond event E). intros [= <-].
      do 2 eexists. split; [reflexivity|discriminate].
  - exact (Hbody Authenticate H).
  - exact (Hbody Register H).
  - exact (Hbody Confirm H).
Qed.

Lemma respond_message_nonempty_witness :
  exists status message,
    APIGatewayProxyResult.mk 401 (object_text (js "message") (js "Unauthorized"))
    = Refactored.respond status message /\ message <> [].
Proof.
  refine (respond_message_nonempty unread_format (js "client") (js "secret")
            (rejecting None) (request_with_header "Authorization" "Bearer abc.def")
            (APIGatewayProxyResult.mk 401 (object_text (js "message") (js "Unauthorized")))
            _).
  left. vm_compute. reflexivity.
Defined.

Lemma code_units_checked (s : jsstring) :
  forallb (fun c => (0 <=? c) && (c <? 65536)) s = true -> Forall code_unit s.
Proof.
  induction s as [|c s IH]; cbn [forallb]; intros H; constructor.
  - apply andb_true_iff in H as [H _]. apply andb_true_iff in H as [H1 H2].
    unfold code_unit. lia.
  - apply andb_true_iff in H as [_ H]. exact (IH H).
Qed.

(** X10. [respond] loses nothing of its message: for every status and
    every message, quotation marks, reverse solidi, control characters and
    lone surrogates included, [JSON.parse] reads the body back as the
    object whose one key [message] holds that message; so two answers of
    [respond] with the same body carry the same message. *)
Theorem respond_reads_back (status : Z) (message : jsstring) :
  Forall code_unit message ->
  JSON.parse (APIGatewayProxyResult.body (Refactored.respond status message))
  = Some (VObject [(js "message", VString message)])
  /\ (forall status' message',
        Forall code_unit message' ->
        APIGatewayProxyResult.body (Refactored.respond status message)
        = APIGatewayProxyResult.body (Refactored.respond status' message') ->
        message = message').
Proof.
  assert (Hkey : Forall code_unit (js "message")).
  { apply code_units_checked. reflexivity. }
  assert (Hparse : forall s m, Forall code_unit m ->
             JSON.parse (APIGatewayProxyResult.body (Refactored.respond s m))
             = Some (VObject [(js "message", VString m)])).
  { intros s m Hm. exact (parse_stringify (js "message") m Hkey Hm). }
  intros Hm. split; [exact (Hparse status message Hm)|].
  intros status' message' Hm' Heq.
  pose proof (Hparse status message Hm) as H1.
  rewrite Heq, (Hparse status' message' Hm') in H1.
  injection H1 as H1. symmetry. exact H1.
Qed.

Lemma respond_reads_back_witness :
  JSON.parse
    (APIGatewayProxyResult.body
       (Refactored.respond 400 (quoted "User 'u1' \ not found" ++ [10; 0xD800])))
  = Some (VObject [(js "message", VString (quoted "User 'u1' \ not found" ++ [10; 0xD800]))]).
Proof.
  refine (proj1 (respond_reads_back 400 (quoted "User 'u1' \ not found" ++ [10; 0xD800])
                   _)).
  apply code_units_checked. vm_compute. reflexivity.
Defined.

(** X11. On a request with a truthy body the draft of [authenticate] and
    the [authenticate] of src/index.ts make the same provider calls, and
    they end alike, in the same response or the same uncaught error, but
    for a rejected [initiateAuth]: the draft, awaiting it outside any
    [try], ends rejected with the provider's error where src/index.ts
    answers 400 with the error's message. *)
Theorem draft_authenticate_agrees
  (Number_toString : number -> jsstring) (cognitoClientId cognitoClientSecret : jsstring)
  (cognito : Cognito) (event : APIGatewayProxyEvent.t) :
  falsy (APIGatewayProxyEvent.body event) = false ->
  calls_of cognito
    (Draft.authenticate Number_toString cognitoClientId cognitoClientSecret event)
  = calls_of cognito
      (Index.authenticate Number_toString cognitoClientId cognitoClientSecret event)
  /\ (outcome cognito
        (Draft.authenticate Number_toString cognitoClientId cognitoClientSecret event)
      = as_draft
          (outcome cognito
             (Index.authenticate Number_toString cognitoClientId cognitoClientSecret event))
      \/ exists params error,
           calls_of cognito
             (Index.authenticate Number_toString cognitoClientId cognitoClientSecret event)
           = [called (initiateAuth params)]
           /\ cognito InitiateAuthResponse.t (initiateAuth params) = Rejected error
           /\ outcome cognito
                (Draft.authenticate Number_toString cognitoClientId cognitoClientSecret event)
              = Returned (Draft.Rejection error)
           /\ outcome cognito
                (Index.authenticate Number_toString cognitoClientId cognitoClientSecret event)
              = Returned (APIGatewayProxyResult.mk 400
                            (JSON.stringify [(js "message", message error)]))).
Proof.
  unfold calls_of, outcome, Draft.authenticate, Index.authenticate,
    Draft.calculateSecretHash, Index.calculateSecretHash, Index.message_body.
  destruct (APIGatewayProxyEvent.body event) as [b|]; cbn [falsy]; [|discriminate].
  intros Hb. rewrite Hb. cbn [default from_option id].
  destruct (JSON.parse b) as [v|]; cbn [or_throw mbind Promise_bind bind run fst snd];
    [|split; [reflexivity|left; reflexivity]].
  destruct (destructure v) as [field|]; cbn [or_throw mbind Promise_bind bind run fst snd];
    [|split; [reflexivity|left; reflexivity]].
  destruct (negb (ToBoolean (field (js "username")))
            || negb (ToBoolean (field (js "password"))));
    cbn [run fst snd]; [split; [reflexivity|left; reflexivity]|].
  destruct (plus Number_toString (field (js "username")) cognitoClientId) as [data|];
    cbn [or_throw mbind Promise_bind bind await run fst snd];
    [|split; [reflexivity|left; reflexivity]].
  destruct (cognito InitiateAuthResponse.t _) as [response|error] eqn:E.
  - cbn [bind]. destruct (falsy _); cbn [run fst snd as_draft];
      (split; [reflexivity|left; reflexivity]).
  - cbn [bind run fst snd]. split; [reflexivity|]. right.
    eexists _, error. repeat split. exact E.
Qed.

Lemma draft_authenticate_agrees_witness :
  outcome (rejecting (Some (js "Incorrect username or password.")))
    (Draft.authenticate unread_format (js "client") (js "secret")
       (request "{'username':'00011122233','password':'wrong'}"))
  = Returned (Draft.Rejection (mkError (Some (js "Incorrect username or password.")))).
Proof.
  destruct (proj2 (draft_authenticate_agrees unread_format (js "client") (js "secret")
                     (rejecting (Some (js "Incorrect username or password.")))
                     (request "{'username':'00011122233','password':'wrong'}") eq_refl))
    as [H|(params & error & _ & Hrej & Hdraft & _)].
  - exfalso. vm_compute in H. discriminate H.
  - rewrite Hdraft. injection Hrej as <-. reflexivity.
Defined.

(** X12. The draft of [authenticate] has no test of the body: a body that
    is [null] is parsed as the text [null] and destructuring the result
    throws a TypeError; the empty body is no JSON and [JSON.parse] throws a
    SyntaxError.  Neither is answered, and the provider is not called. *)
Theorem draft_without_body
  (Number_toString : number -> jsstring) (cognitoClientId cognitoClientSecret : jsstring)
  (cognito : Cognito) (event : APIGatewayProxyEvent.t) :
  (APIGatewayProxyEvent.body event = None ->
   run cognito (Draft.authenticate Number_toString cognitoClientId cognitoClientSecret event)
   = ([], Uncaught TypeError))
  /\ (APIGatewayProxyEvent.body event = Some [] ->
      run cognito
        (Draft.authenticate Number_toString cognitoClientId cognitoClientSecret event)
      = ([], Uncaught SyntaxError)).
Proof.
  unfold Draft.authenticate. split; intros ->; reflexivity.
Qed.

Lemma draft_without_body_witness :
  run (accepting None)
    (Draft.authenticate unread_format (js "client") (js "secret")
       (APIGatewayProxyEvent.mk None None))
  = ([], Uncaught TypeError).
Proof.
  apply (proj1 (draft_without_body unread_format (js "client") (js "secret")
                  (accepting None) (APIGatewayProxyEvent.mk None None))).
  reflexivity.
Defined.

(** X13. Every call that authenticate, register or confirm makes carries
    the configured client id as its [ClientId], and as its secret hash a
    standard base64 text of 44 characters: 43 of the alphabet and one
    [=], whatever the type of the username that was parsed. *)
Theorem provider_calls_carry
  (Number_toString : number -> jsstring) (cognitoClientId cognitoClientSecret : jsstring)
  (cognito : Cognito) (rev : revision) (h : body_handler) (event : APIGatewayProxyEvent.t)
  (c : Called) :
  In c (calls_of cognito
          (handler_of Number_toString cognitoClientId cognitoClientSecret rev h event)) ->
  client_id_of c = Some cognitoClientId
  /\ exists chars,
       secret_hash_of c = Some (chars ++ [61])
       /\ length chars = 43%nat
       /\ Forall (fun x => In x Crypto.base64_alphabet) chars.
Proof.
  unfold calls_of. rewrite run_handler_of. unfold uniform_run.
  destruct (body_text event) as [b|]; [|intros []].
  destruct (JSON.parse b) as [v|]; [|intros []].
  destruct (destructure v) as [field|]; [|intros []].
  destruct (some_field_falsy h field); [intros []|].
  rewrite calculateSecretHash_of_ToString.
  destruct (ToString Number_toString (field (js "username"))) as [u|]; [|intros []].
  cbn [fmap option_fmap option_map fst]. intros [<-|[]].
  destruct (base64_of_32_bytes
              (Crypto.hmac_sha256 (Crypto.utf8 cognitoClientSecret)
                 (Crypto.utf8 (u ++ cognitoClientId)))
              (hmac_sha256_length _ _)) as (chars & Heq & Hlen & Hall).
  split; [destruct h; reflexivity|].
  exists chars. split; [|split; assumption].
  unfold Crypto.createHmac_sha256_base64. rewrite <- Heq. destruct h; reflexivity.
Qed.

Lemma provider_calls_carry_witness :
  client_id_of
    (called (signUp
               (SignUpRequest.mk (js "client") (VString (js "p1")) (VString (js "u1"))
                  [SignUpRequest.mkAttribute (js "email") (VString (js "a@b.com"))]
                  (Crypto.createHmac_sha256_base64 (js "secret") (js "u1client")))))
  = Some (js "client").
Proof.
  refine (proj1 (provider_calls_carry unread_format (js "client") (js "secret")
                   (accepting None) WithRespond Register
                   (request "{'email':'a@b.com','username':'u1','password':'p1'}") _ _)).
  vm_compute. left. reflexivity.
Defined.

(** X14. A username that is an object with an own [toString] property
    is truthy and passes validation, but [username + cognitoClientId] has no
    conversion for it: once every required field is truthy, authenticate,
    register and confirm end in the uncaught TypeError of
    [calculateSecretHash], and the provider is not called. *)
Theorem own_toString_username_throws
  (Number_toString : number -> jsstring) (cognitoClientId cognitoClientSecret : jsstring)
  (cognito : Cognito) (rev : revision) (h : body_handler) (event : APIGatewayProxyEvent.t)
  (b : jsstring) (v : value) (field : jsstring -> value)
  (props : list (jsstring * value)) (x : value) :
  APIGatewayProxyEvent.body event = Some b ->
  JSON.parse b = Some v ->
  destructure v = Some field ->
  (forall k, In k (required_fields h) -> ToBoolean (field k) = true) ->
  field (js "username") = VObject props ->
  own_property (js "toString") props = Some x ->
  run cognito (handler_of Number_toString cognitoClientId cognitoClientSecret rev h event)
  = ([], Uncaught TypeError).
Proof.
  intros Hb Hp Hd Hall Hu Hx. rewrite run_handler_of. unfold uniform_run.
  rewrite (body_text_parsed _ _ _ Hb Hp), Hp, Hd, (all_fields_truthy _ _ Hall).
  rewrite calculateSecretHash_of_ToString, Hu. cbn [ToString]. rewrite Hx. reflexivity.
Qed.

Lemma own_toString_username_throws_witness :
  run (accepting None)
    (handler_of unread_format (js "client") (js "secret") WithRespond Confirm
       (request "{'username':{'toString':'u1'},'code':'864798'}"))
  = ([], Uncaught TypeError).
Proof.
  refine (own_toString_username_throws unread_format (js "client") (js "secret")
            (accepting None) WithRespond Confirm
            (request "{'username':{'toString':'u1'},'code':'864798'}")
            (quoted "{'username':{'toString':'u1'},'code':'864798'}")
            (VObject [(js "username", VObject [(js "toString", VString (js "u1"))]);
                      (js "code", VString (js "864798"))])
            (fun k => default VUndefined
                        (own_property k
                           [(js "username", VObject [(js "toString", VString (js "u1"))]);
                            (js "code", VString (js "864798"))]))
            [(js "toString", VString (js "u1"))] (VString (js "u1")) _ _ _ _ _ _).
  - reflexivity.
  - vm_compute. reflexivity.
  - reflexivity.
  - intros k [<-|[<-|[]]]; reflexivity.
  - reflexivity.
  - reflexivity.
Defined.

(** X15. Whatever text the body is, once [JSON.parse] makes [null] of it
    (the text [null], white space around it or not), destructuring throws:
    authenticate, register and confirm end in the uncaught TypeError before
    validation, and the provider is not called. *)
Theorem null_body_throws
  (Number_toString : number -> jsstring) (cognitoClientId cognitoClientSecret : jsstring)
  (cognito : Cognito) (rev : revision) (h : body_handler) (event : APIGatewayProxyEvent.t)
  (b : jsstring) :
  APIGatewayProxyEvent.body event = Some b ->
  JSON.parse b = Some VNull ->
  run cognito (handler_of Number_toString cognitoClientId cognitoClientSecret rev h event)
  = ([], Uncaught TypeError).
Proof.
  intros Hb Hp. rewrite run_handler_of. unfold uniform_run.
  rewrite (body_text_parsed _ _ _ Hb Hp), Hp. reflexivity.
Qed.

Lemma null_body_throws_witness :
  run (rejecting None)
    (handler_of unread_format (js "client") (js "secret") SrcIndex Register
       (request " null "))
  = ([], Uncaught TypeError).
Proof.
  refine (null_body_throws unread_format (js "client") (js "secret") (rejecting None)
            SrcIndex Register (request " null ") (quoted " null ") _ _).
  - reflexivity.
  - vm_compute. reflexivity.
Defined.

(** X16. The secret hash is taken of the bare concatenation
    [username + cognitoClientId]: a username that is no string is hashed
    as the string [+] turns it into, so the array of one string and that
    string get the same hash; and nothing marks where the username ends,
    so moving characters from the end of the username to the front of the
    client id leaves the hash as it was. *)
Theorem secret_hash_of_concatenation
  (Number_toString : number -> jsstring) (cognitoClientId cognitoClientSecret : jsstring)
  (rev : revision) :
  (forall username s,
      ToString Number_toString username = Some s ->
      calculateSecretHash_of Number_toString cognitoClientId cognitoClientSecret rev username
      = calculateSecretHash_of Number_toString cognitoClientId cognitoClientSecret rev
          (VString s))
  /\ (forall u1 u2,
        calculateSecretHash_of Number_toString (u2 ++ cognitoClientId) cognitoClientSecret
          rev (VString u1)
        = calculateSecretHash_of Number_toString cognitoClientId cognitoClientSecret rev
            (VString (u1 ++ u2))).
Proof.
  split.
  - intros username s Hs. rewrite !calculateSecretHash_of_ToString, Hs. reflexivity.
  - intros u1 u2. rewrite !calculateSecretHash_of_ToString. cbn [ToString fmap option_fmap
      option_map]. rewrite app_assoc. reflexivity.
Qed.

Lemma secret_hash_of_concatenation_witness :
  calculateSecretHash_of unread_format (js "client") (js "secret") SrcIndex
    (VArray [VString (js "u1")])
  = calculateSecretHash_of unread_format (js "client") (js "secret") SrcIndex
      (VString (js "u1")).
Proof.
  apply (proj1 (secret_hash_of_concatenation unread_format (js "client") (js "secret")
                  SrcIndex)).
  reflexivity.
Defined.
